(** * pytest-monitor: the monitoring session coordinator

    A shallow embedding of [src/pytest_monitor/session.py]
    (class [PyTestMonitorSession]) and the properties of it that the
    specification states.

    The coordinator is effectful Python: it mutates its own fields, talks to
    a local store through [DBHandler] and to a remote service through
    [requests], prints to stdout, raises warnings and can raise exceptions.
    It is embedded in a state-and-exception monad over one record holding
    the object's fields and the part of the outside world it touches.  A
    raised exception keeps every mutation made before it, as in Python. *)

From Stdlib Require Import Floats ZArith String Ascii List Bool Lia.
Import ListNotations.

Local Open Scope string_scope.
Local Open Scope list_scope.

Set Implicit Arguments.
Set Warnings "-register-all,-inexact-float".

(** ** Python values *)

(** What [json.loads] can return, and what the payloads handed to
    [requests] are made of.  [JNull] is Python's [None]. *)
Inductive json : Type :=
| JNull
| JBool (b : bool)
| JInt (z : Z)
| JFloat (f : float)
| JStr (s : string)
| JArr (l : list json)
| JObj (d : list (string * json)).

(** [x is None] *)
Definition is_None (j : json) : bool :=
  match j with JNull => true | _ => false end.

(** The exceptions the coordinator can meet. Every one of them derives from
    Python's [Exception]. *)
Inductive exn : Type :=
| TypeError
| ZeroDivisionError
| IndexError
| KeyError
| ValueError
| AttributeError
| OverflowError
| OSError
| JSONDecodeError
| ConnectionError.      (* requests.exceptions.RequestException *)

(** Truth value of a JSON value, as [if x:] tests it. *)
Definition truthy (j : json) : bool :=
  match j with
  | JNull => false
  | JBool b => b
  | JInt z => negb (Z.eqb z 0)
  | JFloat f => negb (PrimFloat.eqb f 0%float)
  | JStr s => negb (String.eqb s "")
  | JArr l => match l with [] => false | _ => true end
  | JObj d => match d with [] => false | _ => true end
  end.

(** ** Strings *)

Module Str.

(** [c in s] for a one-character [c] *)
Fixpoint contains (c : ascii) (s : string) : bool :=
  match s with
  | EmptyString => false
  | String a r => if Ascii.eqb a c then true else contains c r
  end.

(** The text before and after the first [c], when there is one. *)
Fixpoint cut (c : ascii) (s : string) : option (string * string) :=
  match s with
  | EmptyString => None
  | String a r =>
      if Ascii.eqb a c then Some (EmptyString, r)
      else match cut c r with
           | Some (l, t) => Some (String a l, t)
           | None => None
           end
  end.

(** [s.split(c, 1)] *)
Definition split1 (c : ascii) (s : string) : list string :=
  match cut c s with
  | Some (l, t) => [l; t]
  | None => [s]
  end.

(** [s.endswith(c)] *)
Fixpoint endswith (c : ascii) (s : string) : bool :=
  match s with
  | EmptyString => false
  | String a EmptyString => Ascii.eqb a c
  | String _ r => endswith c r
  end.

(** [s[:-1]] *)
Fixpoint drop_last (s : string) : string :=
  match s with
  | EmptyString => EmptyString
  | String _ EmptyString => EmptyString
  | String a r => String a (drop_last r)
  end.

(** [s.replace(c, t)] for a one-character [c] *)
Fixpoint replace (c : ascii) (t : string) (s : string) : string :=
  match s with
  | EmptyString => EmptyString
  | String a r =>
      if Ascii.eqb a c then t ++ replace c t r else String a (replace c t r)
  end.

(** [s[:n] if s else 'empty'], for a text of one-byte characters *)
Definition head_or_empty (n : nat) (s : string) : string :=
  if String.eqb s "" then "empty" else substring 0 n s.

(** [k in l] for a list of strings *)
Definition mem (k : string) (l : list string) : bool :=
  existsb (String.eqb k) l.

End Str.

(** Truth value of [self.__remote]: [None] and the empty string are false. *)
Definition str_truthy (r : option string) : bool :=
  match r with
  | None => false
  | Some s => negb (String.eqb s "")
  end.

(** The text of a truthy [self.__remote] inside an f-string. *)
Definition str_of (r : option string) : string :=
  match r with Some s => s | None => "None" end.

(** ** Dictionaries with string keys, in insertion order *)

Module Dict.

Definition t (V : Type) := list (string * V).

Fixpoint get {V} (d : t V) (k : string) : option V :=
  match d with
  | [] => None
  | (k', v) :: r => if String.eqb k' k then Some v else get r k
  end.

(** [d[k] = v]: overwrite in place, or add at the end. *)
Fixpoint set {V} (d : t V) (k : string) (v : V) : t V :=
  match d with
  | [] => [(k, v)]
  | (k', v') :: r =>
      if String.eqb k' k then (k', v) :: r else (k', v') :: set r k v
  end.

End Dict.

(** ** The runtime

    The runtime services the module calls and this development does not
    implement: they are the interface it is parametric in. *)
Class PyRuntime : Type := {
  (** [hashlib.md5(data).hexdigest()] *)
  md5_hexdigest : string -> string;
  (** [json.dumps(d)] *)
  json_dumps : json -> string;
  (** [json.loads(text)]; [None] when the text is not JSON and the call
      raises *)
  json_loads : string -> option json;
  (** [datetime.datetime.fromtimestamp(t).isoformat()];
      [None] when the time stamp is out of range and the call raises *)
  fromtimestamp_isoformat : float -> option string;
  (** [template.format(user_component=c)];
      [None] when the template names another field and the call raises *)
  format_user_component : string -> string -> option string;
  (** what [fromtimestamp(t)] raises when it raises: [OverflowError],
      [OSError] or [ValueError] *)
  fromtimestamp_error : float -> exn;
  (** what [template.format(user_component=c)] raises when it raises:
      [KeyError], [IndexError], [ValueError] or [AttributeError] *)
  format_error : string -> string -> exn
}.

Module Hashlib.

(** A hash object: the bytes fed to it so far. [update] called with [a]
    then [b] is [update] called with [a + b]. *)
Record md5 : Type := { fed : string }.

Definition new : md5 := {| fed := "" |}.
Definition update (h : md5) (data : string) : md5 := {| fed := fed h ++ data |}.
Definition hexdigest `{PyRuntime} (h : md5) : string := md5_hexdigest (fed h).

End Hashlib.

(** [s.encode()]: strings are held as their UTF-8 bytes. *)
Definition encode (s : string) : string := s.

(** ** The outside world *)

(** Modelled from the spec: the execution context
    ([pytest_monitor.sys_utils.ExecutionContext], not part of the module
    embedded here), by the two things the coordinator asks of it: its
    fingerprint [compute_hash()] and its serialisation [to_dict()]. *)
Record ExecutionContext : Type := {
  compute_hash : string;
  to_dict : json
}.

(** The arguments of [insert_session]. *)
Record session_row : Type := {
  sr_session_h : string;
  sr_run_date : string;
  sr_scm : string;
  sr_description : string
}.

(** The arguments of [insert_metric], in their order. *)
Record metric_row : Type := {
  mr_session_h : string;
  mr_env_id : string;
  mr_item_start_time : string;
  mr_item : string;
  mr_item_path : string;
  mr_item_variant : string;
  mr_item_loc : string;
  mr_kind : string;
  mr_component : string;
  mr_total_time : float;
  mr_user_time : float;
  mr_kernel_time : float;
  mr_cpu_usage : float;
  mr_mem_usage : float
}.

Module DBHandler.

(** Modelled from the spec: the local store adapter
    ([pytest_monitor.handler.DBHandler], not part of the module embedded
    here), by its contract: a point lookup of a context by fingerprint
    and three inserts. The store is the rows it was given, in order. *)
Record t : Type := {
  EXECUTION_CONTEXTS : list ExecutionContext;
  TEST_SESSIONS : list session_row;
  TEST_METRICS : list metric_row
}.

Definition empty : t :=
  {| EXECUTION_CONTEXTS := []; TEST_SESSIONS := []; TEST_METRICS := [] |}.

(** Modelled from the spec: [query("SELECT ENV_H FROM EXECUTION_CONTEXTS
    WHERE ENV_H = ?", (h,))], the first matching row [(ENV_H,)] or
    [None]. *)
Definition query_env_h (db : t) (h : string) : option string :=
  match find (fun c => String.eqb (compute_hash c) h) (EXECUTION_CONTEXTS db) with
  | Some c => Some (compute_hash c)
  | None => None
  end.

(** Modelled from the spec: [insert_execution_context(env)]. *)
Definition insert_execution_context (db : t) (env : ExecutionContext) : t :=
  {| EXECUTION_CONTEXTS := EXECUTION_CONTEXTS db ++ [env];
     TEST_SESSIONS := TEST_SESSIONS db;
     TEST_METRICS := TEST_METRICS db |}.

(** Modelled from the spec: [insert_session(h, run_date, scm, description)]. *)
Definition insert_session (db : t) (r : session_row) : t :=
  {| EXECUTION_CONTEXTS := EXECUTION_CONTEXTS db;
     TEST_SESSIONS := TEST_SESSIONS db ++ [r];
     TEST_METRICS := TEST_METRICS db |}.

(** Modelled from the spec: [insert_metric(...)]. *)
Definition insert_metric (db : t) (r : metric_row) : t :=
  {| EXECUTION_CONTEXTS := EXECUTION_CONTEXTS db;
     TEST_SESSIONS := TEST_SESSIONS db;
     TEST_METRICS := TEST_METRICS db ++ [r] |}.

End DBHandler.

(** The remote service. A URL is the base [self.__remote] followed by the
    path of one of five endpoints. *)
Inductive endpoint : Type :=
| ContextByHash (h : string)   (* /contexts/{h} *)
| Sessions                     (* /sessions/ *)
| Contexts                     (* /contexts/ *)
| Metrics                      (* /metrics/ *)
| SystemMemory.                (* /system-memory/ *)

Definition path (e : endpoint) : string :=
  match e with
  | ContextByHash h => "/contexts/" ++ h
  | Sessions => "/sessions/"
  | Contexts => "/contexts/"
  | Metrics => "/metrics/"
  | SystemMemory => "/system-memory/"
  end.

Inductive http_method : Type := GET | POST.

Record http_request : Type := {
  rq_method : http_method;
  rq_base : string;
  rq_endpoint : endpoint;
  rq_json : json               (* the [json=] payload; [JNull] for a GET *)
}.

Arguments path : simpl never.


Record response : Type := {
  status_code : Z;
  text : string
}.

(** What a call of [requests.get] or [requests.post] comes to: a response,
    or an exception of the transport. *)
Inductive http_outcome : Type :=
| Responded (r : response)
| Failed.

Definition OK : Z := 200%Z.
Definition CREATED : Z := 201%Z.

(** The lines [_log] prints, by the message and the values it formats. *)
Inductive log_event : Type :=
| LogGet (u : string)
| LogGetResponse (status : Z)
| LogGetResponseBody (body : json)
| LogSetEnvironmentInfo (db_id : option string) (remote_id : json)
| LogPost (u : string)
| LogPostPayload (payload : json)
| LogPostResponse (status : Z) (body : string)
| LogGotRemoteContextId (remote_id : json)
| LogFinalEnvIds (db_id : option string) (remote_id : json)
| LogMetricSkippedScope (kind : string) (scope : list string) (item : string)
| LogPostMetric (u : string) (item : string) (mem : float)
| LogMetricFailed (status : Z) (body : string)
| LogMetricOk (item : string)
| LogMetricSkippedNoEnv (item : string)
| LogSysmemFailed (status : Z) (body : string)
| LogSysmemError (e : exn).

(** The warnings [warnings.warn] is called with. *)
Inductive warning : Type :=
| CannotInsertSession (status : Z)
| CannotInsertContext (status : Z)
| CannotInsertValues (status : Z).

(** ** State *)

(** The fields of a [PyTestMonitorSession] and, below them, the world it
    acts on. [self_db] is the handler together with the store behind it;
    the [psutil] handle [self.__process] is left to the readings of a
    [probe]. Times and memory sizes are Python floats, binary64.
    [server] is what the remote service will do at the coming calls, in
    order (a service that is gone fails them); [exchanged], [stdout] and
    [warned] record what happened, latest first. *)
Record state : Type := {
  self_db : option DBHandler.t;
  self_monitor_enabled : bool;
  self_remote : option string;
  self_component : string;
  self_session : string;
  self_scope : list string;
  self_eid : option string * json;
  self_mem_usage_base : option float;
  self_test_order : Z;
  server : list http_outcome;
  exchanged : list (http_request * http_outcome);
  stdout : list log_event;
  warned : list warning
}.

Definition set_db (v : option DBHandler.t) (s : state) : state :=
  {| self_db := v; self_monitor_enabled := self_monitor_enabled s;
     self_remote := self_remote s; self_component := self_component s;
     self_session := self_session s; self_scope := self_scope s;
     self_eid := self_eid s; self_mem_usage_base := self_mem_usage_base s;
     self_test_order := self_test_order s; server := server s;
     exchanged := exchanged s; stdout := stdout s; warned := warned s |}.

Definition set_remote (v : option string) (s : state) : state :=
  {| self_db := self_db s; self_monitor_enabled := self_monitor_enabled s;
     self_remote := v; self_component := self_component s;
     self_session := self_session s; self_scope := self_scope s;
     self_eid := self_eid s; self_mem_usage_base := self_mem_usage_base s;
     self_test_order := self_test_order s; server := server s;
     exchanged := exchanged s; stdout := stdout s; warned := warned s |}.

Definition set_session (v : string) (s : state) : state :=
  {| self_db := self_db s; self_monitor_enabled := self_monitor_enabled s;
     self_remote := self_remote s; self_component := self_component s;
     self_session := v; self_scope := self_scope s;
     self_eid := self_eid s; self_mem_usage_base := self_mem_usage_base s;
     self_test_order := self_test_order s; server := server s;
     exchanged := exchanged s; stdout := stdout s; warned := warned s |}.

Definition set_eid (v : option string * json) (s : state) : state :=
  {| self_db := self_db s; self_monitor_enabled := self_monitor_enabled s;
     self_remote := self_remote s; self_component := self_component s;
     self_session := self_session s; self_scope := self_scope s;
     self_eid := v; self_mem_usage_base := self_mem_usage_base s;
     self_test_order := self_test_order s; server := server s;
     exchanged := exchanged s; stdout := stdout s; warned := warned s |}.

Definition set_mem_usage_base (v : option float) (s : state) : state :=
  {| self_db := self_db s; self_monitor_enabled := self_monitor_enabled s;
     self_remote := self_remote s; self_component := self_component s;
     self_session := self_session s; self_scope := self_scope s;
     self_eid := self_eid s; self_mem_usage_base := v;
     self_test_order := self_test_order s; server := server s;
     exchanged := exchanged s; stdout := stdout s; warned := warned s |}.

Definition set_test_order (v : Z) (s : state) : state :=
  {| self_db := self_db s; self_monitor_enabled := self_monitor_enabled s;
     self_remote := self_remote s; self_component := self_component s;
     self_session := self_session s; self_scope := self_scope s;
     self_eid := self_eid s; self_mem_usage_base := self_mem_usage_base s;
     self_test_order := v; server := server s;
     exchanged := exchanged s; stdout := stdout s; warned := warned s |}.

Definition set_http (sv : list http_outcome)
    (ex : list (http_request * http_outcome)) (s : state) : state :=
  {| self_db := self_db s; self_monitor_enabled := self_monitor_enabled s;
     self_remote := self_remote s; self_component := self_component s;
     self_session := self_session s; self_scope := self_scope s;
     self_eid := self_eid s; self_mem_usage_base := self_mem_usage_base s;
     self_test_order := self_test_order s; server := sv;
     exchanged := ex; stdout := stdout s; warned := warned s |}.

Definition set_stdout (v : list log_event) (s : state) : state :=
  {| self_db := self_db s; self_monitor_enabled := self_monitor_enabled s;
     self_remote := self_remote s; self_component := self_component s;
     self_session := self_session s; self_scope := self_scope s;
     self_eid := self_eid s; self_mem_usage_base := self_mem_usage_base s;
     self_test_order := self_test_order s; server := server s;
     exchanged := exchanged s; stdout := v; warned := warned s |}.

Definition set_warned (v : list warning) (s : state) : state :=
  {| self_db := self_db s; self_monitor_enabled := self_monitor_enabled s;
     self_remote := self_remote s; self_component := self_component s;
     self_session := self_session s; self_scope := self_scope s;
     self_eid := self_eid s; self_mem_usage_base := self_mem_usage_base s;
     self_test_order := self_test_order s; server := server s;
     exchanged := exchanged s; stdout := stdout s; warned := v |}.

(** ** The monad *)

Inductive outcome (A : Type) : Type :=
| Ok (a : A)
| Raise (e : exn).
Arguments Ok {A} a.
Arguments Raise {A} e.

Definition M (A : Type) : Type := state -> outcome A * state.

Definition ret {A} (a : A) : M A := fun s => (Ok a, s).

Definition bind {A B} (c : M A) (k : A -> M B) : M B :=
  fun s =>
    match c s with
    | (Ok a, s') => k a s'
    | (Raise e, s') => (Raise e, s')
    end.

Definition raise {A} (e : exn) : M A := fun s => (Raise e, s).

Definition gets {A} (f : state -> A) : M A := fun s => (Ok (f s), s).

Definition modify (f : state -> state) : M unit := fun s => (Ok tt, f s).

(** [try: c except Exception as e: h e] *)
Definition try_except {A} (c : M A) (h : exn -> M A) : M A :=
  fun s =>
    match c s with
    | (Ok a, s') => (Ok a, s')
    | (Raise e, s') => h e s'
    end.

(** A value, or the exception raised in its place. *)
Definition or_raise {A} (o : option A) (e : exn) : M A :=
  match o with Some a => ret a | None => raise e end.

Declare Scope monad_scope.
Delimit Scope monad_scope with monad.
Notation "x <- c ;; k" := (bind c (fun x => k))
  (at level 61, c at next level, right associativity) : monad_scope.
Notation "c ;; k" := (bind c (fun _ => k))
  (at level 61, right associativity) : monad_scope.
Local Open Scope monad_scope.

(** [_log(msg)] *)
Definition _log (e : log_event) : M unit :=
  modify (fun s => set_stdout (e :: stdout s) s).

(** [warnings.warn(msg)] *)
Definition warn (w : warning) : M unit :=
  modify (fun s => set_warned (w :: warned s) s).

(** [requests.get(url)] and [requests.post(url, json=payload)]: the call
    is made, and the service answers, or the transport raises. The payload
    is taken to serialise: [requests] refuses one that holds an infinity
    or a NaN before it sends anything, and the properties that rest on a
    request being sent say so ([json_serialisable]). *)
Definition requests (rq : http_request) : M response :=
  fun s =>
    match server s with
    | [] => (Raise ConnectionError, set_http [] ((rq, Failed) :: exchanged s) s)
    | Failed :: sv =>
        (Raise ConnectionError, set_http sv ((rq, Failed) :: exchanged s) s)
    | Responded r :: sv =>
        (Ok r, set_http sv ((rq, Responded r) :: exchanged s) s)
    end.

Definition requests_get (base : string) (e : endpoint) : M response :=
  requests {| rq_method := GET; rq_base := base; rq_endpoint := e; rq_json := JNull |}.

Definition requests_post (base : string) (e : endpoint) (payload : json) : M response :=
  requests {| rq_method := POST; rq_base := base; rq_endpoint := e; rq_json := payload |}.

(** [l[i]] on a list *)
Definition list_item {A} (l : list A) (i : nat) : M A :=
  or_raise (nth_error l i) IndexError.

(** [j[k]] for a string [k] *)
Definition getitem_key (j : json) (k : string) : M json :=
  match j with
  | JObj d => or_raise (Dict.get d k) KeyError
  | _ => raise TypeError
  end.

(** [j[0]] *)
Definition getitem_0 (j : json) : M json :=
  match j with
  | JArr l => or_raise (nth_error l 0) IndexError
  | JStr s =>
      match s with
      | EmptyString => raise IndexError
      | String a _ => ret (JStr (String a EmptyString))
      end
  | JObj _ => raise KeyError
  | _ => raise TypeError
  end.

(** [a / b] on floats *)
Definition truediv (a b : float) : M float :=
  if PrimFloat.eqb b 0%float then raise ZeroDivisionError
  else ret (PrimFloat.div a b).

(** [n / (1024 ** 2)] for a count of bytes [n], [0 <= n < 2^63]. *)
Definition mb (n : Z) : float :=
  PrimFloat.div (PrimFloat.of_uint63 (Uint63.of_Z n)) 1048576%float.

(** ** What the host reports *)

(** The result of [memory_profiler.memory_usage(..., max_usage=True)]: a
    float, or with older releases a list of floats. *)
Inductive memory_usage : Type :=
| MemList (l : list float)
| MemValue (f : float).

(** What [compute_info] reads from the host: the clock, the source-control
    revision ([determine_scm_revision]), the CI metadata
    ([collect_ci_info]), the memory of a no-op call and the execution
    context ([ExecutionContext()]). *)
Record host : Type := {
  now_isoformat : string;
  scm_revision : string;
  ci_info : Dict.t string;
  memuse : memory_usage;
  context : ExecutionContext
}.

(** What [add_system_memory_snapshot] reads from [psutil] and the clock.
    [vm_cached] and [vm_buffers] are absent on some platforms. *)
Record probe : Type := {
  vm_total : Z;
  vm_available : Z;
  vm_used : Z;
  vm_percent : float;
  vm_cached : option Z;
  vm_buffers : option Z;
  swap_used : Z;
  proc_rss : Z;
  proc_vms : Z;
  recorded_at : string
}.

(** A tag: one [key=value] string, or a sequence of them. *)
Inductive tag : Type :=
| Single (s : string)
| Group (l : list string).

Definition json_of_dict (d : Dict.t string) : json :=
  JObj (map (fun kv => (fst kv, JStr (snd kv))) d).

Definition json_of_option {A} (f : A -> json) (o : option A) : json :=
  match o with Some a => f a | None => JNull end.

(** ** PyTestMonitorSession *)

Section PyTestMonitorSession.

Context {rt : PyRuntime}.

(** [PyTestMonitorSession(db, remote, component, scope, tracing)], in a
    world where the store at the path [db] holds [store] and the remote
    service will behave as [sv]. *)
Definition __init__ (store : DBHandler.t) (sv : list http_outcome)
    (db : option string) (remote : option string) (component : string)
    (scope : option (list string)) (tracing : bool) : state :=
  {| self_db := if str_truthy db then Some store else None;
     self_monitor_enabled := tracing;
     self_remote := remote;
     self_component := component;
     self_session := "";
     self_scope := match scope with
                   | Some ((_ :: _) as l) => l
                   | _ => []
                   end;
     self_eid := (None, JNull);
     self_mem_usage_base := None;
     self_test_order := 0;
     server := sv;
     exchanged := [];
     stdout := [];
     warned := [] |}.

Definition monitoring_enabled (s : state) : bool := self_monitor_enabled s.
Definition remote_env_id (s : state) : json := snd (self_eid s).
Definition db_env_id (s : state) : option string := fst (self_eid s).
Definition session_h (s : state) : string := self_session s.
Definition test_order (s : state) : Z := self_test_order s.

Definition increment_test_order : M Z :=
  n <- gets self_test_order ;;
  modify (set_test_order (n + 1)) ;;
  gets self_test_order.

Definition get_env_id (env : ExecutionContext) : M (option string * json) :=
  self_db' <- gets self_db ;;
  let db :=
    match self_db' with
    | Some store =>
        let row := DBHandler.query_env_h store (compute_hash env) in
        match row with Some h => Some h | None => None end
    | None => None
    end in
  self_remote' <- gets self_remote ;;
  remote <-
    (if str_truthy self_remote' then
       let e := ContextByHash (compute_hash env) in
       _log (LogGet (str_of self_remote' ++ path e)) ;;
       r <- requests_get (str_of self_remote') e ;;
       _log (LogGetResponse (status_code r)) ;;
       if Z.eqb (status_code r) OK then
         remote <- or_raise (json_loads (text r)) JSONDecodeError ;;
         _log (LogGetResponseBody remote) ;;
         contexts <- getitem_key remote "contexts" ;;
         if truthy contexts then
           contexts <- getitem_key remote "contexts" ;;
           first <- getitem_0 contexts ;;
           getitem_key first "h"
         else ret JNull
       else ret JNull
     else ret JNull) ;;
  ret (db, remote).

Definition set_environment_info (env : ExecutionContext) : M unit :=
  eid <- get_env_id env ;;
  modify (set_eid eid) ;;
  eid <- gets self_eid ;;
  let (db_id, remote_id) := eid in
  _log (LogSetEnvironmentInfo db_id remote_id) ;;
  self_db' <- gets self_db ;;
  db_id <-
    match self_db', db_id with
    | Some store, None =>
        let store := DBHandler.insert_execution_context store env in
        modify (set_db (Some store)) ;;
        (* [query(...)[0]]: subscripting [None] raises *)
        h <- or_raise (DBHandler.query_env_h store (compute_hash env)) TypeError ;;
        ret (Some h)
    | _, _ => ret db_id
    end ;;
  self_remote' <- gets self_remote ;;
  remote_id <-
    (if str_truthy self_remote' && is_None remote_id then
       let payload := to_dict env in
       _log (LogPost (str_of self_remote' ++ path Contexts)) ;;
       _log (LogPostPayload payload) ;;
       r <- requests_post (str_of self_remote') Contexts payload ;;
       _log (LogPostResponse (status_code r) (Str.head_or_empty 500 (text r))) ;;
       if negb (Z.eqb (status_code r) CREATED) then
         warn (CannotInsertContext (status_code r)) ;;
         modify (set_remote (Some "")) ;;
         ret remote_id
       else
         body <- or_raise (json_loads (text r)) JSONDecodeError ;;
         remote_id <- getitem_key body "h" ;;
         _log (LogGotRemoteContextId remote_id) ;;
         ret remote_id
     else ret remote_id) ;;
  modify (set_eid (db_id, remote_id)) ;;
  _log (LogFinalEnvIds db_id remote_id).

Definition prepare (m : memory_usage) : M unit :=
  base <- match m with
          | MemList l => list_item l 0
          | MemValue f => ret f
          end ;;
  modify (set_mem_usage_base (Some base)).

(** The two statements of the tag loops: [_tag_info = tag.split("=", 1)]
    and [d[_tag_info[0]] = _tag_info[1]] (the right-hand side first). *)
Definition set_tag (d : Dict.t string) (tag : string) : M (Dict.t string) :=
  let _tag_info := Str.split1 "=" tag in
  v <- list_item _tag_info 1 ;;
  k <- list_item _tag_info 0 ;;
  ret (Dict.set d k v).

Fixpoint for_sub_tags (l : list string) (d : Dict.t string) : M (Dict.t string) :=
  match l with
  | [] => ret d
  | sub_tag :: l' => d' <- set_tag d sub_tag ;; for_sub_tags l' d'
  end.

Fixpoint for_tags (tags : list tag) (d : Dict.t string) : M (Dict.t string) :=
  match tags with
  | [] => ret d
  | Single s :: tags' => d' <- set_tag d s ;; for_tags tags' d'
  | Group l :: tags' => d' <- for_sub_tags l d ;; for_tags tags' d'
  end.

Definition compute_info (h : host) (description : string) (tags : list tag) : M unit :=
  let run_date := now_isoformat h in
  let scm := scm_revision h in
  let md := Hashlib.new in
  let md := Hashlib.update md (encode scm) in
  let md := Hashlib.update md (encode run_date) in
  let md := Hashlib.update md (encode description) in
  modify (set_session (Hashlib.hexdigest md)) ;;
  let d := ci_info h in
  let d := if negb (String.eqb description "")
           then Dict.set d "description" description else d in
  d <- for_tags tags d ;;
  let description := json_dumps (json_of_dict d) in
  prepare (memuse h) ;;
  set_environment_info (context h) ;;
  self_db' <- gets self_db ;;
  session <- gets self_session ;;
  match self_db' with
  | Some store =>
      modify (set_db (Some (DBHandler.insert_session store
        {| sr_session_h := session; sr_run_date := run_date;
           sr_scm := scm; sr_description := description |})))
  | None => ret tt
  end ;;
  self_remote' <- gets self_remote ;;
  if str_truthy self_remote' then
    session <- gets self_session ;;
    loaded <- or_raise (json_loads description) JSONDecodeError ;;
    let payload := JObj [("session_h", JStr session);
                         ("run_date", JStr run_date);
                         ("scm_ref", JStr scm);
                         ("description", loaded)] in
    _log (LogPost (str_of self_remote' ++ path Sessions)) ;;
    _log (LogPostPayload payload) ;;
    r <- requests_post (str_of self_remote') Sessions payload ;;
    _log (LogPostResponse (status_code r) (Str.head_or_empty 200 (text r))) ;;
    if negb (Z.eqb (status_code r) CREATED) then
      modify (set_remote (Some "")) ;;
      warn (CannotInsertSession (status_code r))
    else ret tt
  else ret tt.

Definition add_test_info (item item_path item_variant item_loc kind component : string)
    (item_start_time total_time user_time kernel_time mem_usage : float) : M unit :=
  scope <- gets self_scope ;;
  if negb (Str.mem kind scope) then
    _log (LogMetricSkippedScope kind scope item)
  else
    base <- gets self_mem_usage_base ;;
    (* [float - None] raises *)
    base <- or_raise base TypeError ;;
    let mem_usage := PrimFloat.sub mem_usage base in
    cpu_usage <- truediv (PrimFloat.add user_time kernel_time) total_time ;;
    item_start_time <- or_raise (fromtimestamp_isoformat item_start_time)
                         (fromtimestamp_error item_start_time) ;;
    template <- gets self_component ;;
    final_component <- or_raise (format_user_component template component)
                         (format_error template component) ;;
    let final_component :=
      if Str.endswith "." final_component
      then Str.drop_last final_component else final_component in
    let item_variant := Str.replace "-" ", " item_variant in
    self_db' <- gets self_db ;;
    env_id <- gets db_env_id ;;
    session <- gets self_session ;;
    match self_db', env_id with
    | Some store, Some env_id =>
        modify (set_db (Some (DBHandler.insert_metric store
          {| mr_session_h := session;
             mr_env_id := env_id;
             mr_item_start_time := item_start_time;
             mr_item := item;
             mr_item_path := item_path;
             mr_item_variant := item_variant;
             mr_item_loc := item_loc;
             mr_kind := kind;
             mr_component := final_component;
             mr_total_time := total_time;
             mr_user_time := user_time;
             mr_kernel_time := kernel_time;
             mr_cpu_usage := cpu_usage;
             mr_mem_usage := mem_usage |})))
    | _, _ => ret tt
    end ;;
    self_remote' <- gets self_remote ;;
    context_h <- gets remote_env_id ;;
    if str_truthy self_remote' && negb (is_None context_h) then
      session <- gets self_session ;;
      let payload := JObj [("session_h", JStr session);
                           ("context_h", context_h);
                           ("item_start_time", JStr item_start_time);
                           ("item_path", JStr item_path);
                           ("item", JStr item);
                           ("item_variant", JStr item_variant);
                           ("item_fs_loc", JStr item_loc);
                           ("kind", JStr kind);
                           ("component", JStr final_component);
                           ("total_time", JFloat total_time);
                           ("user_time", JFloat user_time);
                           ("kernel_time", JFloat kernel_time);
                           ("cpu_usage", JFloat cpu_usage);
                           ("mem_usage", JFloat mem_usage)] in
      _log (LogPostMetric (str_of self_remote' ++ path Metrics) item mem_usage) ;;
      r <- requests_post (str_of self_remote') Metrics payload ;;
      if negb (Z.eqb (status_code r) CREATED) then
        _log (LogMetricFailed (status_code r) (Str.head_or_empty 200 (text r))) ;;
        modify (set_remote (Some "")) ;;
        warn (CannotInsertValues (status_code r))
      else
        _log (LogMetricOk item)
    else if str_truthy self_remote' && is_None context_h then
      _log (LogMetricSkippedNoEnv item)
    else ret tt.

Definition add_system_memory_snapshot (p : probe) (item_path item : string) : M unit :=
  self_remote' <- gets self_remote ;;
  if negb (str_truthy self_remote') then ret tt
  else
    test_order <- increment_test_order ;;
    session <- gets self_session ;;
    let payload := JObj [("session_h", JStr session);
                         ("test_order", JInt test_order);
                         ("item_path", JStr item_path);
                         ("item", JStr item);
                         ("total_memory_mb", JFloat (mb (vm_total p)));
                         ("available_memory_mb", JFloat (mb (vm_available p)));
                         ("used_memory_mb", JFloat (mb (vm_used p)));
                         ("memory_percent", JFloat (vm_percent p));
                         ("process_rss_mb", JFloat (mb (proc_rss p)));
                         ("process_vms_mb", JFloat (mb (proc_vms p)));
                         ("cached_mb", json_of_option (fun n => JFloat (mb n)) (vm_cached p));
                         ("buffers_mb", json_of_option (fun n => JFloat (mb n)) (vm_buffers p));
                         ("swap_used_mb", JFloat (mb (swap_used p)));
                         ("recorded_at", JStr (recorded_at p))] in
    self_remote' <- gets self_remote ;;
    try_except
      (r <- requests_post (str_of self_remote') SystemMemory payload ;;
       if negb (Z.eqb (status_code r) CREATED) then
         _log (LogSysmemFailed (status_code r) (Str.head_or_empty 200 (text r)))
       else ret tt)
      (fun e => _log (LogSysmemError e)).

(** ** A run of the coordinator

    The calls a test run makes on the session object. *)
Inductive call : Type :=
| CallComputeInfo (h : host) (description : string) (tags : list tag)
| CallSetEnvironmentInfo (env : ExecutionContext)
| CallGetEnvId (env : ExecutionContext)
| CallPrepare (m : memory_usage)
| CallAddTestInfo (item item_path item_variant item_loc kind component : string)
    (item_start_time total_time user_time kernel_time mem_usage : float)
| CallAddSystemMemorySnapshot (p : probe) (item_path item : string)
| CallIncrementTestOrder.

(** The outcome of a call, its result dropped, and the state it leaves. *)
Definition forget {A} (r : outcome A * state) : outcome unit * state :=
  match r with
  | (Ok _, s) => (Ok tt, s)
  | (Raise e, s) => (Raise e, s)
  end.

Definition run (c : call) : M unit :=
  match c with
  | CallComputeInfo h description tags => compute_info h description tags
  | CallSetEnvironmentInfo env => set_environment_info env
  | CallGetEnvId env => fun s => forget (get_env_id env s)
  | CallPrepare m => prepare m
  | CallAddTestInfo item item_path item_variant item_loc kind component
      item_start_time total_time user_time kernel_time mem_usage =>
      add_test_info item item_path item_variant item_loc kind component
        item_start_time total_time user_time kernel_time mem_usage
  | CallAddSystemMemorySnapshot p item_path item =>
      add_system_memory_snapshot p item_path item
  | CallIncrementTestOrder => fun s => forget (increment_test_order s)
  end.

(** The state after a sequence of calls, each one made whatever the
    previous ones came to. *)
Fixpoint run_all (cs : list call) (s : state) : state :=
  match cs with
  | [] => s
  | c :: cs' => run_all cs' (snd (run c s))
  end.

(** The remote sink's health flag: the truth value of [self.__remote]. *)
Definition remote_enabled (s : state) : bool := str_truthy (self_remote s).

End PyTestMonitorSession.

(** ** Vocabulary of the properties *)

(** The strings of a tag sequence, in the order the loops visit them. *)
Definition sub_tags (t : tag) : list string :=
  match t with
  | Single s => [s]
  | Group l => l
  end.

Definition flat_tags (tags : list tag) : list string := flat_map sub_tags tags.


Definition is_metric_write (x : http_request * http_outcome) : bool :=
  match rq_endpoint (fst x) with
  | Metrics => true
  | _ => false
  end.

(** The metric rows of the local store; none without a store. *)
Definition local_metrics (s : state) : list metric_row :=
  match self_db s with
  | Some store => DBHandler.TEST_METRICS store
  | None => []
  end.

(** The context rows of the local store; none without a store. *)
Definition local_contexts (s : state) : list ExecutionContext :=
  match self_db s with
  | Some store => DBHandler.EXECUTION_CONTEXTS store
  | None => []
  end.


(** What a call may do to the metrics: it leaves the scope as it is, and
    with an empty scope it adds no metric row to the local store and no
    request to the metrics endpoint. *)
Definition keeps_metrics (s s' : state) : Prop :=
  self_scope s' = self_scope s
  /\ (self_scope s = [] ->
      local_metrics s' = local_metrics s
      /\ filter is_metric_write (exchanged s') = filter is_metric_write (exchanged s)).

(** A list that has only been added to, at its end. *)
Definition grows {A : Type} (l l' : list A) : Prop :=
  exists more, l' = l ++ more.

(** What a call may do to the local store: a store that is there stays
    there and each of its tables has only been added to; a store that is
    not there is not created. *)
Definition append_only (s s' : state) : Prop :=
  match self_db s, self_db s' with
  | Some a, Some b =>
      grows (DBHandler.EXECUTION_CONTEXTS a) (DBHandler.EXECUTION_CONTEXTS b)
      /\ grows (DBHandler.TEST_SESSIONS a) (DBHandler.TEST_SESSIONS b)
      /\ grows (DBHandler.TEST_METRICS a) (DBHandler.TEST_METRICS b)
  | None, None => True
  | _, _ => False
  end.

(** What a call may do to the warnings: none is raised and
    [self.__remote] is left as it is, or one is raised and the remote
    sink, enabled before, is disabled after. *)
Definition warned_once (s s' : state) : Prop :=
  (warned s' = warned s /\ self_remote s' = self_remote s)
  \/ (exists w, warned s' = w :: warned s
                /\ remote_enabled s = true /\ remote_enabled s' = false).

(** What every call keeps: the store is append-only, the component
    template and the tracing switch stay, the test order does not go
    down, and a warning comes with the one disabling of the remote. *)
Definition settled (s s' : state) : Prop :=
  append_only s s'
  /\ self_component s' = self_component s
  /\ self_monitor_enabled s' = self_monitor_enabled s
  /\ (self_test_order s <= self_test_order s')%Z
  /\ warned_once s s'.

(** The value the tags give to the key [k]: that of the last
    [key=value] string with this key, if there is one. *)
Fixpoint last_value (k : string) (l : list string) : option string :=
  match l with
  | [] => None
  | t :: l' =>
      match last_value k l' with
      | Some v => Some v
      | None =>
          match Str.cut "=" t with
          | Some (k', v) => if String.eqb k' k then Some v else None
          | None => None
          end
      end
  end.

(** A run of snapshots, one per test. *)
Definition snapshots (l : list (probe * string * string)) : list call :=
  map (fun x => CallAddSystemMemorySnapshot (fst (fst x)) (snd (fst x)) (snd x)) l.

(** The lookup of a context found nothing: the answer is not OK, or it is
    OK with an empty list of contexts. *)
Definition not_registered {rt : PyRuntime} (r : response) : Prop :=
  status_code r <> OK
  \/ (status_code r = OK
      /\ exists body, json_loads (text r) = Some (JObj body)
                      /\ Dict.get body "contexts" = Some (JArr [])).

(** The lookup of a context found the identifier [x]. *)
Definition registered_as {rt : PyRuntime} (r : response) (x : json) : Prop :=
  status_code r = OK
  /\ exists body first rest,
       json_loads (text r) = Some (JObj body)
       /\ Dict.get body "contexts" = Some (JArr (JObj first :: rest))
       /\ Dict.get first "h" = Some x.

(** The local identifier [get_env_id] returns: the row of the
    fingerprint in a configured store, if there is one. *)
Definition local_lookup (s : state) (env : ExecutionContext) : option string :=
  match self_db s with
  | Some store => DBHandler.query_env_h store (compute_hash env)
  | None => None
  end.

(** The GET that looks a context up and the POST that registers it. *)
Definition lookup_request (s : state) (env : ExecutionContext) : http_request :=
  {| rq_method := GET; rq_base := str_of (self_remote s);
     rq_endpoint := ContextByHash (compute_hash env); rq_json := JNull |}.

Definition register_request (s : state) (env : ExecutionContext) : http_request :=
  {| rq_method := POST; rq_base := str_of (self_remote s);
     rq_endpoint := Contexts; rq_json := to_dict env |}.

(** The reading [prepare] keeps of what the memory profiler gave. *)
Definition first_reading (m : memory_usage) : option float :=
  match m with
  | MemList l => hd_error l
  | MemValue f => Some f
  end.

(** The mapping [compute_info] starts the tag loops with: the CI metadata,
    and the description under its own key unless it is empty. *)
Definition description_base (h : host) (description : string) : Dict.t string :=
  if negb (String.eqb description "")
  then Dict.set (ci_info h) "description" description
  else ci_info h.

(** Every tag has its ['=']. *)
Definition well_formed (tags : list tag) : Prop :=
  Forall (fun t => Str.contains "=" t = true) (flat_tags tags).

(** The POST that submits a session. *)
Definition session_request (s : state) (payload : json) : http_request :=
  {| rq_method := POST; rq_base := str_of (self_remote s);
     rq_endpoint := Sessions; rq_json := payload |}.

(** A document that [json.dumps(..., allow_nan=False)] accepts: it holds
    no infinity and no NaN. *)
Fixpoint json_serialisable (j : json) : bool :=
  match j with
  | JFloat f => PrimFloat.is_finite f
  | JArr l => forallb json_serialisable l
  | JObj d => forallb (fun kv => json_serialisable (snd kv)) d
  | _ => true
  end.

(** The payload of a metric serialises: the remote environment
    identifier does, and the three times, the CPU usage and the memory
    delta are finite. *)
Definition metric_serialises (context_h : json)
    (total_time user_time kernel_time mem_usage base : float) : Prop :=
  json_serialisable context_h = true
  /\ PrimFloat.is_finite total_time = true
  /\ PrimFloat.is_finite user_time = true
  /\ PrimFloat.is_finite kernel_time = true
  /\ PrimFloat.is_finite
       (PrimFloat.div (PrimFloat.add user_time kernel_time) total_time) = true
  /\ PrimFloat.is_finite (PrimFloat.sub mem_usage base) = true.

(** ** Data of the examples *)

(** A runtime for the examples. Its digest is the text itself, its JSON
    codec knows the one document [{h: text}], its clock the one instant,
    and its [format] the templates that are the bare field or hold no
    field at all. *)
Definition example_runtime : PyRuntime :=
  {| md5_hexdigest := fun data => data;
     json_dumps := fun _ => "{}";
     json_loads := fun t => if String.eqb t "" then None else Some (JObj [("h", JStr t)]);
     fromtimestamp_isoformat := fun _ => Some "1970-01-01T00:00:00";
     format_user_component := fun template c =>
       if String.eqb template "{user_component}" then Some c
       else if Str.contains "{" template || Str.contains "}" template then None
       else Some template;
     fromtimestamp_error := fun _ => OverflowError;
     format_error := fun template _ =>
       if String.eqb template "{}" then IndexError else KeyError |}.

Definition example_env : ExecutionContext :=
  {| compute_hash := "e1"; to_dict := JObj [("machine", JStr "x86_64")] |}.

Definition example_store : DBHandler.t :=
  {| DBHandler.EXECUTION_CONTEXTS := [example_env];
     DBHandler.TEST_SESSIONS := [];
     DBHandler.TEST_METRICS := [] |}.

Definition example_host : host :=
  {| now_isoformat := "2024-01-01T00:00:00";
     scm_revision := "abc123";
     ci_info := [("pipeline_branch", "main")];
     memuse := MemValue 100%float;
     context := example_env |}.

Definition example_probe : probe :=
  {| vm_total := 8589934592%Z; vm_available := 4294967296%Z;
     vm_used := 4294967296%Z; vm_percent := 50%float;
     vm_cached := Some 1048576%Z; vm_buffers := None;
     swap_used := 0%Z; proc_rss := 104857600%Z; proc_vms := 209715200%Z;
     recorded_at := "2024-01-01T00:00:01" |}.

(** A session after [compute_info]: both sinks configured, the context
    resolved on both, the baseline calibrated at 100, the scope
    [function]; the remote service will behave as [sv]. *)
Definition example_state (sv : list http_outcome) : state :=
  {| self_db := Some example_store;
     self_monitor_enabled := true;
     self_remote := Some "http://monitor";
     self_component := "{user_component}";
     self_session := "abc1232024-01-01T00:00:00nightly";
     self_scope := ["function"];
     self_eid := (Some "e1", JStr "e1");
     self_mem_usage_base := Some 100%float;
     self_test_order := 0%Z;
     server := sv;
     exchanged := [];
     stdout := [];
     warned := [] |}.

Definition rejected : http_outcome :=
  Responded {| status_code := 500%Z; text := "Internal Server Error" |}.

Definition created : http_outcome :=
  Responded {| status_code := 201%Z; text := "e1" |}.

(** A runtime for the examples of the remote registry. Its JSON codec
    reads the text [none] as a lookup that found nothing and any other
    text as a record of that identifier, alone and in a list of one. *)
Definition registry_runtime : PyRuntime :=
  {| md5_hexdigest := fun data => data;
     json_dumps := fun _ => "description";
     json_loads := fun t =>
       if String.eqb t "" then None
       else if String.eqb t "none" then Some (JObj [("contexts", JArr [])])
       else Some (JObj [("h", JStr t);
                        ("contexts", JArr [JObj [("h", JStr t)]])]);
     fromtimestamp_isoformat := fun _ => Some "1970-01-01T00:00:00";
     format_user_component := fun template c =>
       if String.eqb template "{user_component}" then Some c
       else if Str.contains "{" template || Str.contains "}" template then None
       else Some template;
     fromtimestamp_error := fun _ => OverflowError;
     format_error := fun template _ =>
       if String.eqb template "{}" then IndexError else KeyError |}.

Definition answered (status : Z) (body : string) : http_outcome :=
  Responded {| status_code := status; text := body |}.

(** A session as [__init__] leaves it, with both sinks and an empty
    store; the remote service will behave as [sv]. *)
Definition fresh_state (sv : list http_outcome) : state :=
  __init__ DBHandler.empty sv (Some "monitor.db") (Some "http://monitor")
    "{user_component}" (Some ["function"]) true.

(** An in-scope metric and a snapshot, as calls. *)
Definition example_metric : call :=
  CallAddTestInfo "test_a" "pkg.mod" "a-b" "pkg/mod.py" "function" "core"
    0%float 1%float 0.6%float 0.1%float 120%float.

Definition example_snapshot : call :=
  CallAddSystemMemorySnapshot example_probe "pkg.mod" "test_a".

(** * Properties *)

Unset Implicit Arguments.

(** ** Tactics *)

(** Unfold the monad and the primitives down to matches on the state. *)
Ltac unmonad :=
  cbv [bind ret gets modify raise or_raise try_except _log warn
       requests_post requests_get requests list_item truediv
       increment_test_order forget andb negb] in *.

(** Split on the scrutinee of the first match or conditional of the goal. *)
Ltac split_match :=
  match goal with
  | |- context [match ?x with _ => _ end] =>
      lazymatch x with
      | context [match _ with _ => _ end] => fail
      | _ => let E := fresh "E" in destruct x eqn:E
      end
  end.

Ltac exec := unmonad; repeat (cbn in *; try split_match).




(** Close a goal [keeps_metrics s s'] on states that are given in full. *)
Ltac keeps_close :=
  unfold keeps_metrics, local_metrics in *; cbn in *;
  (split;
   [ reflexivity
   | let Hs := fresh "Hs" in
     intros Hs; try (rewrite Hs in *; cbn in *; discriminate);
     repeat match goal with
            | H : self_db _ = _ |- _ => rewrite H
            end;
     cbn; split; reflexivity ]).

(** Name the result of a run, so that it is executed once. *)
Ltac name_run c :=
  let r := fresh "r" in
  let Hr := fresh "Hr" in
  remember c as r eqn:Hr; revert r Hr.

Ltac end_run :=
  let r := fresh "r" in
  intros r ->; cbn in *.

(** ** The scope filter *)

Lemma add_test_info_out_of_scope_run {rt : PyRuntime} :
  forall (s : state) (item item_path item_variant item_loc kind component : string)
         (item_start_time total_time user_time kernel_time mem_usage : float),
    Str.mem kind (self_scope s) = false ->
    add_test_info item item_path item_variant item_loc kind component
      item_start_time total_time user_time kernel_time mem_usage s
    = (Ok tt, set_stdout (LogMetricSkippedScope kind (self_scope s) item :: stdout s) s).
Proof.
  intros s item item_path item_variant item_loc kind component
    item_start_time total_time user_time kernel_time mem_usage Hscope.
  unfold add_test_info. unmonad. rewrite Hscope. reflexivity.
Qed.

(** C3. A metric whose kind is not in the configured scope is dropped:
    [add_test_info] returns normally, and the state it leaves is the one
    it found but for the line printed on stdout -- nothing is normalised
    (the call returns even without a baseline and with a zero total
    time), nothing is written to the local store, nothing is sent. *)
Theorem add_test_info_out_of_scope {rt : PyRuntime} :
  forall (s : state) (item item_path item_variant item_loc kind component : string)
         (item_start_time total_time user_time kernel_time mem_usage : float),
    Str.mem kind (self_scope s) = false ->
    add_test_info item item_path item_variant item_loc kind component
      item_start_time total_time user_time kernel_time mem_usage s
    = (Ok tt, set_stdout (LogMetricSkippedScope kind (self_scope s) item :: stdout s) s).
Proof.
  intros s item item_path item_variant item_loc kind component
    item_start_time total_time user_time kernel_time mem_usage Hscope.
  apply add_test_info_out_of_scope_run. exact Hscope.
Qed.

Lemma add_test_info_out_of_scope_witness :
  Str.mem "environment" (self_scope (example_state [])) = false
  /\ fst (add_test_info (rt := example_runtime) "test_a" "pkg.mod" "a-b" "pkg/mod.py"
            "environment" "core" 0%float 0%float 0.6%float 0.1%float 120%float
            (set_mem_usage_base None (example_state []))) = Ok tt.
Proof.
  split; [reflexivity|].
  rewrite (add_test_info_out_of_scope (rt := example_runtime)
             (set_mem_usage_base None (example_state []))); reflexivity.
Defined.

(** ** The tag loops touch nothing *)

Lemma set_tag_pure {rt : PyRuntime} (d : Dict.t string) (t : string) :
  exists o, forall s, set_tag d t s = (o, s).
Proof.
  unfold set_tag, Str.split1. destruct (Str.cut "=" t) as [[l r]|];
    eexists; intros s; reflexivity.
Qed.

Lemma for_sub_tags_pure {rt : PyRuntime} (l : list string) :
  forall d, exists o, forall s, for_sub_tags l d s = (o, s).
Proof.
  induction l as [|t l IH]; intros d.
  - exists (Ok d). reflexivity.
  - destruct (set_tag_pure d t) as [[d'|e] Ht].
    + destruct (IH d') as [o Ho]. exists o. intros s.
      cbn. unfold bind. rewrite Ht. apply Ho.
    + exists (Raise e). intros s. cbn. unfold bind. rewrite Ht. reflexivity.
Qed.

Lemma for_tags_pure {rt : PyRuntime} (tags : list tag) :
  forall d, exists o, forall s, for_tags tags d s = (o, s).
Proof.
  induction tags as [|[t|l] tags IH]; intros d.
  - exists (Ok d). reflexivity.
  - destruct (set_tag_pure d t) as [[d'|e] Ht].
    + destruct (IH d') as [o Ho]. exists o. intros s.
      cbn. unfold bind. rewrite Ht. apply Ho.
    + exists (Raise e). intros s. cbn. unfold bind. rewrite Ht. reflexivity.
  - destruct (for_sub_tags_pure l d) as [[d'|e] Ht].
    + destruct (IH d') as [o Ho]. exists o. intros s.
      cbn. unfold bind. rewrite Ht. apply Ho.
    + exists (Raise e). intros s. cbn. unfold bind. rewrite Ht. reflexivity.
Qed.

(** ** The one-way health flag *)













(** ** The system memory snapshot *)

(** C8. [add_system_memory_snapshot] is a remote-only, best-effort
    diagnostic. (1) With the remote sink unset (or disabled) it does
    nothing at all. (2) In every state and whatever the service does, it
    returns normally, leaves the local store and [self.__remote] as they
    were, and raises no warning. (3) With the remote sink enabled, a
    transport failure or a response other than CREATED puts one line on
    stdout, and nothing else tells of it. *)
Theorem add_system_memory_snapshot_best_effort :
  (forall (p : probe) (item_path item : string) (s : state),
      remote_enabled s = false ->
      add_system_memory_snapshot p item_path item s = (Ok tt, s))
  /\ (forall (p : probe) (item_path item : string) (s : state),
        let r := add_system_memory_snapshot p item_path item s in
        fst r = Ok tt
        /\ self_db (snd r) = self_db s
        /\ self_remote (snd r) = self_remote s
        /\ warned (snd r) = warned s)
  /\ (forall (p : probe) (item_path item : string) (s : state),
        remote_enabled s = true ->
        let s' := snd (add_system_memory_snapshot p item_path item s) in
        match server s with
        | Responded r :: _ =>
            if Z.eqb (status_code r) CREATED then stdout s' = stdout s
            else stdout s'
                 = LogSysmemFailed (status_code r) (Str.head_or_empty 200 (text r))
                     :: stdout s
        | _ => stdout s' = LogSysmemError ConnectionError :: stdout s
        end).
Proof.
  split; [|split].
  - intros p item_path item s Hd. unfold remote_enabled in Hd.
    unfold add_system_memory_snapshot. unmonad. rewrite Hd. reflexivity.
  - intros p item_path item s. unfold add_system_memory_snapshot.
    exec; auto.
  - intros p item_path item s He. unfold remote_enabled in He.
    unfold add_system_memory_snapshot. unmonad. rewrite He. cbn.
    destruct (server s) as [|[r|] sv]; cbn; try reflexivity.
    destruct (Z.eqb (status_code r) CREATED); reflexivity.
Qed.

Lemma add_system_memory_snapshot_best_effort_witness :
  add_system_memory_snapshot example_probe "pkg.mod" "test_a"
    (set_remote None (example_state [created]))
  = (Ok tt, set_remote None (example_state [created]))
  /\ fst (add_system_memory_snapshot example_probe "pkg.mod"
            "test_a" (example_state [])) = Ok tt
  /\ remote_enabled
       (snd (add_system_memory_snapshot example_probe
               "pkg.mod" "test_a" (example_state [rejected]))) = true
  /\ stdout (snd (add_system_memory_snapshot example_probe
                    "pkg.mod" "test_a" (example_state [])))
     = [LogSysmemError ConnectionError].
Proof.
  destruct add_system_memory_snapshot_best_effort as (H1 & H2 & H3).
  split; [|split; [|split]].
  - apply H1. reflexivity.
  - apply (H2 example_probe "pkg.mod" "test_a" (example_state [])).
  - destruct (H2 example_probe "pkg.mod" "test_a" (example_state [rejected]))
      as (_ & _ & Hr & _).
    unfold remote_enabled. rewrite Hr. reflexivity.
  - apply (H3 example_probe "pkg.mod" "test_a" (example_state []) eq_refl).
Defined.

(** ** The default scope *)

Lemma keeps_metrics_refl (s : state) : keeps_metrics s s.
Proof. split; auto. Qed.

Lemma keeps_metrics_trans (s1 s2 s3 : state) :
  keeps_metrics s1 s2 -> keeps_metrics s2 s3 -> keeps_metrics s1 s3.
Proof.
  intros [S1 K1] [S2 K2]. split; [congruence|].
  intros Hs. destruct (K1 Hs) as [M1 X1].
  assert (Hs2 : self_scope s2 = []) by congruence.
  destruct (K2 Hs2) as [M2 X2]. split; congruence.
Qed.

Lemma get_env_id_keeps_metrics {rt : PyRuntime} (env : ExecutionContext) (s : state) :
  keeps_metrics s (snd (get_env_id env s)).
Proof.
  unfold get_env_id, getitem_key, getitem_0. exec; keeps_close.
Qed.

Lemma set_environment_info_keeps_metrics {rt : PyRuntime}
    (env : ExecutionContext) (s : state) :
  keeps_metrics s (snd (set_environment_info env s)).
Proof.
  unfold set_environment_info. unfold bind at 1.
  pose proof (get_env_id_keeps_metrics env s) as H1.
  destruct (get_env_id env s) as [[eid|e] s1]; cbn in H1; [|exact H1].
  eapply keeps_metrics_trans; [exact H1|]. clear H1.
  unfold getitem_key. destruct eid as [db_id remote_id].
  exec; keeps_close.
Qed.

Lemma compute_info_keeps_metrics {rt : PyRuntime}
    (h : host) (description : string) (tags : list tag) (s : state) :
  keeps_metrics s (snd (compute_info h description tags s)).
Proof.
  unfold compute_info. unmonad.
  match goal with
  | |- context [for_tags tags ?d ?s0] =>
      destruct (for_tags_pure tags d) as [o Ho]; rewrite (Ho s0)
  end.
  destruct o as [d|e]; [|keeps_close].
  unfold prepare. unmonad.
  destruct (memuse h) as [[|b l]|b]; cbn [nth_error]; try keeps_close.
  all: match goal with
       | |- context [set_environment_info ?env ?s0] =>
           pose proof (set_environment_info_keeps_metrics env s0) as H1;
           destruct (set_environment_info env s0) as [[[]|e] s1]; cbn in H1;
           (eapply keeps_metrics_trans with (s2 := s0); [keeps_close|]);
           (eapply keeps_metrics_trans; [exact H1|]); clear H1
       end.
  all: exec; keeps_close.
Qed.

Lemma run_keeps_metrics {rt : PyRuntime} (c : call) (s : state) :
  keeps_metrics s (snd (run c s)).
Proof.
  destruct c; cbn [run].
  - apply compute_info_keeps_metrics.
  - apply set_environment_info_keeps_metrics.
  - pose proof (get_env_id_keeps_metrics env s) as H1.
    destruct (get_env_id env s) as [[a|e] s1]; exact H1.
  - unfold prepare. exec; keeps_close.
  - unfold add_test_info, remote_env_id, db_env_id, Str.mem. exec; keeps_close.
  - unfold add_system_memory_snapshot. exec; keeps_close.
  - exec; keeps_close.
Qed.

Lemma run_all_keeps_metrics {rt : PyRuntime} (cs : list call) :
  forall s, keeps_metrics s (run_all cs s).
Proof.
  induction cs as [|c cs IH]; intros s; cbn [run_all].
  - apply keeps_metrics_refl.
  - eapply keeps_metrics_trans; [apply run_keeps_metrics | apply IH].
Qed.

(** C9. A session built with the default [scope=None] has the empty list
    for scope, and no call ever changes it: after any sequence of calls the
    scope is still empty, the local store holds the metric rows it held at
    construction, no request went to the metrics endpoint, and
    [add_test_info] drops the metric it is given, whatever its kind. *)
Theorem default_scope_records_nothing {rt : PyRuntime} :
  forall (store : DBHandler.t) (sv : list http_outcome) (db remote : option string)
         (component : string) (tracing : bool),
    let s0 := __init__ store sv db remote component None tracing in
    self_scope s0 = []
    /\ forall (cs : list call),
        let s := run_all cs s0 in
        self_scope s = []
        /\ local_metrics s = local_metrics s0
        /\ filter is_metric_write (exchanged s) = []
        /\ forall (item item_path item_variant item_loc kind component : string)
                  (item_start_time total_time user_time kernel_time mem_usage : float),
             add_test_info item item_path item_variant item_loc kind component
               item_start_time total_time user_time kernel_time mem_usage s
             = (Ok tt, set_stdout (LogMetricSkippedScope kind [] item :: stdout s) s).
Proof.
  intros store sv db remote component tracing s0.
  split; [reflexivity|]. intros cs s.
  destruct (run_all_keeps_metrics cs s0) as [Hscope Hkeep].
  destruct (Hkeep eq_refl) as [Hm Hx].
  assert (Hs : self_scope s = []) by exact Hscope.
  repeat split; try assumption.
  intros item item_path item_variant item_loc kind component'
    item_start_time total_time user_time kernel_time mem_usage.
  rewrite add_test_info_out_of_scope_run by (rewrite Hs; reflexivity).
  rewrite Hs. reflexivity.
Qed.

(** ** The session identity *)

Lemma append_assoc (a b c : string) : ((a ++ b) ++ c)%string = (a ++ (b ++ c))%string.
Proof.
  induction a as [|x a IH]; cbn; [reflexivity | rewrite IH; reflexivity].
Qed.

Lemma get_env_id_session {rt : PyRuntime} (env : ExecutionContext) (s : state) :
  self_session (snd (get_env_id env s)) = self_session s.
Proof.
  unfold get_env_id, getitem_key, getitem_0. exec; reflexivity.
Qed.

Lemma set_environment_info_session {rt : PyRuntime}
    (env : ExecutionContext) (s : state) :
  self_session (snd (set_environment_info env s)) = self_session s.
Proof.
  unfold set_environment_info. unfold bind at 1.
  pose proof (get_env_id_session env s) as H1.
  destruct (get_env_id env s) as [[eid|e] s1]; cbn in H1; [|exact H1].
  rewrite <- H1. clear H1.
  unfold getitem_key. destruct eid as [db_id remote_id].
  exec; reflexivity.
Qed.

Lemma compute_info_session {rt : PyRuntime}
    (h : host) (description : string) (tags : list tag) (s : state) :
  self_session (snd (compute_info h description tags s))
  = md5_hexdigest (scm_revision h ++ now_isoformat h ++ description)%string.
Proof.
  unfold compute_info, Hashlib.hexdigest, Hashlib.update, Hashlib.new, encode.
  cbn [Hashlib.fed append]. rewrite append_assoc. unmonad.
  match goal with
  | |- context [for_tags tags ?d ?s0] =>
      destruct (for_tags_pure tags d) as [o Ho]; rewrite (Ho s0)
  end.
  destruct o as [d|e]; [|reflexivity].
  unfold prepare. unmonad.
  destruct (memuse h) as [[|b l]|b]; cbn [nth_error]; try reflexivity.
  all: match goal with
       | |- context [set_environment_info ?env ?s0] =>
           pose proof (set_environment_info_session env s0) as H1;
           destruct (set_environment_info env s0) as [[[]|e] s1]; cbn in H1
       end.
  all: exec; exact H1.
Qed.

(** C7. The session identity that [compute_info] stores is the MD5 hex
    digest of the revision, the run date and the description given by the
    caller, concatenated in that order. It is stored whatever becomes of
    the call afterwards, and neither the tags nor the CI metadata, the
    memory reading or the execution context have a part in it. *)
Theorem session_identity {rt : PyRuntime} :
  forall (h : host) (description : string) (tags : list tag) (s : state),
    session_h (snd (compute_info h description tags s))
    = md5_hexdigest (scm_revision h ++ now_isoformat h ++ description)%string
    /\ forall (ci : Dict.t string) (m : memory_usage) (env : ExecutionContext)
              (tags' : list tag) (s' : state),
         session_h
           (snd (compute_info
                   {| now_isoformat := now_isoformat h;
                      scm_revision := scm_revision h;
                      ci_info := ci; memuse := m; context := env |}
                   description tags' s'))
         = session_h (snd (compute_info h description tags s)).
Proof.
  intros h description tags s. unfold session_h. split.
  - apply compute_info_session.
  - intros ci m env tags' s'. rewrite !compute_info_session. reflexivity.
Qed.

(** ** Tags without a value *)

Lemma cut_contains (c : ascii) (t : string) :
  Str.contains c t = false <-> Str.cut c t = None.
Proof.
  induction t as [|a t IH]; cbn; [tauto|].
  destruct (Ascii.eqb a c); [split; discriminate|].
  destruct (Str.cut c t) as [[l r]|]; split; intros Hx;
    try discriminate; try reflexivity.
  - apply IH in Hx. discriminate.
  - apply IH. reflexivity.
Qed.

Lemma set_tag_lacking {rt : PyRuntime} (d : Dict.t string) (t : string) (s : state) :
  Str.contains "=" t = false -> set_tag d t s = (Raise IndexError, s).
Proof.
  intros Hc. apply cut_contains in Hc. unfold set_tag, Str.split1.
  rewrite Hc. reflexivity.
Qed.

Lemma set_tag_having {rt : PyRuntime} (d : Dict.t string) (t : string) (s : state) :
  Str.contains "=" t = true -> exists d', set_tag d t s = (Ok d', s).
Proof.
  intros Hc. unfold set_tag, Str.split1.
  destruct (Str.cut "=" t) as [[l r]|] eqn:E.
  - eexists. reflexivity.
  - apply cut_contains in E. congruence.
Qed.

Lemma for_sub_tags_lacking {rt : PyRuntime} (l : list string) :
  forall d s,
    Exists (fun t => Str.contains "=" t = false) l ->
    for_sub_tags l d s = (Raise IndexError, s).
Proof.
  induction l as [|t l IH]; intros d s Hex; [inversion Hex|].
  cbn. unfold bind.
  destruct (Str.contains "=" t) eqn:Ht.
  - destruct (set_tag_having d t s Ht) as [d' ->].
    apply IH. inversion Hex; subst; [congruence | assumption].
  - rewrite (set_tag_lacking d t s Ht). reflexivity.
Qed.

(** A loop over sub-tags ends with the dictionary or with [IndexError]. *)
Lemma for_sub_tags_result {rt : PyRuntime} (l : list string) :
  forall d s,
    (exists d', for_sub_tags l d s = (Ok d', s))
    \/ for_sub_tags l d s = (Raise IndexError, s).
Proof.
  induction l as [|t l IH]; intros d s; cbn; [left; eexists; reflexivity|].
  unfold bind. destruct (Str.contains "=" t) eqn:Ht.
  - destruct (set_tag_having d t s Ht) as [d' ->]. apply IH.
  - rewrite (set_tag_lacking d t s Ht). right. reflexivity.
Qed.

Lemma for_tags_lacking {rt : PyRuntime} (tags : list tag) :
  forall d s,
    Exists (fun t => Str.contains "=" t = false) (flat_tags tags) ->
    for_tags tags d s = (Raise IndexError, s).
Proof.
  induction tags as [|[t|l] tags IH]; intros d s Hex; [inversion Hex| |].
  - cbn in *. unfold bind.
    destruct (Str.contains "=" t) eqn:Ht.
    + destruct (set_tag_having d t s Ht) as [d' ->].
      apply IH. inversion Hex; subst; [congruence | assumption].
    + rewrite (set_tag_lacking d t s Ht). reflexivity.
  - cbn in *. unfold bind. apply Exists_app in Hex.
    destruct (for_sub_tags_result l d s) as [[d' Hl]|Hl]; rewrite Hl;
      [|reflexivity].
    destruct Hex as [Hex|Hex]; [|apply IH; exact Hex].
    rewrite (for_sub_tags_lacking l d s Hex) in Hl. discriminate Hl.
Qed.

(** C10. A tag without ['='] stops [compute_info]. (1) Splitting such a
    string once on ['='] gives the one-element list of the string itself.
    (2) If any tag, or any string of a nested tag sequence, has no ['='],
    [compute_info] raises [IndexError]; the state it leaves is the one it
    found but for the session identity, already stored: no baseline, no
    environment, no write to the local store, no request. (3) So a call
    of [compute_info] that returns had ['='] in every tag. *)
Theorem compute_info_needs_key_value_tags {rt : PyRuntime} :
  (forall t : string, Str.contains "=" t = false -> Str.split1 "=" t = [t])
  /\ (forall (h : host) (description : string) (tags : list tag) (s : state),
        Exists (fun t => Str.contains "=" t = false) (flat_tags tags) ->
        compute_info h description tags s
        = (Raise IndexError,
           set_session
             (md5_hexdigest (scm_revision h ++ now_isoformat h ++ description)%string) s))
  /\ (forall (h : host) (description : string) (tags : list tag) (s : state),
        fst (compute_info h description tags s) = Ok tt ->
        Forall (fun t => Str.contains "=" t = true) (flat_tags tags)).
Proof.
  assert (Hraise : forall h description tags s,
            Exists (fun t => Str.contains "=" t = false) (flat_tags tags) ->
            compute_info h description tags s
            = (Raise IndexError,
               set_session
                 (md5_hexdigest
                    (scm_revision h ++ now_isoformat h ++ description)%string) s)).
  { intros h description tags s Hex.
    unfold compute_info, Hashlib.hexdigest, Hashlib.update, Hashlib.new, encode.
    cbn [Hashlib.fed append]. rewrite append_assoc. unmonad.
    rewrite for_tags_lacking by exact Hex. reflexivity. }
  split; [|split].
  - intros t Hc. apply cut_contains in Hc. unfold Str.split1. rewrite Hc. reflexivity.
  - exact Hraise.
  - intros h description tags s Hok.
    apply Forall_forall. intros t Hin.
    destruct (Str.contains "=" t) eqn:Ht; [reflexivity|].
    rewrite Hraise in Hok; [discriminate Hok|].
    apply Exists_exists. exists t. split; assumption.
Qed.

Lemma compute_info_needs_key_value_tags_witness :
  Str.split1 "=" "nightly" = ["nightly"]
  /\ fst (compute_info (rt := example_runtime) example_host "run"
            [Single "team=core"; Group ["os=linux"; "nightly"]]
            (__init__ example_store [created; created] (Some "monitor.db")
               (Some "http://monitor") "{user_component}" (Some ["function"]) true))
     = Raise IndexError
  /\ exchanged
       (snd (compute_info (rt := example_runtime) example_host "run"
               [Single "team=core"; Group ["os=linux"; "nightly"]]
               (__init__ example_store [created; created] (Some "monitor.db")
                  (Some "http://monitor") "{user_component}" (Some ["function"]) true)))
     = [].
Proof.
  destruct (@compute_info_needs_key_value_tags example_runtime) as (H1 & H2 & _).
  split; [|split].
  - apply H1. reflexivity.
  - rewrite H2; [reflexivity|].
    cbn. constructor 2. constructor 2. constructor 1. reflexivity.
  - rewrite H2; [reflexivity|].
    cbn. constructor 2. constructor 2. constructor 1. reflexivity.
Defined.

(** ** Resolution of the environment in the local store *)

Lemma query_env_h_key (store : DBHandler.t) (h k : string) :
  DBHandler.query_env_h store h = Some k -> k = h.
Proof.
  unfold DBHandler.query_env_h.
  destruct (find _ _) as [c|] eqn:E; [|discriminate].
  intros [= <-]. apply find_some in E. destruct E as [_ E].
  apply String.eqb_eq. exact E.
Qed.

Lemma query_env_h_insert (store : DBHandler.t) (env : ExecutionContext) :
  DBHandler.query_env_h (DBHandler.insert_execution_context store env)
    (compute_hash env)
  = Some (compute_hash env).
Proof.
  unfold DBHandler.query_env_h, DBHandler.insert_execution_context. cbn.
  induction (DBHandler.EXECUTION_CONTEXTS store) as [|c l IH]; cbn.
  - rewrite String.eqb_refl. reflexivity.
  - destruct (String.eqb (compute_hash c) (compute_hash env)) eqn:E.
    + apply String.eqb_eq in E. rewrite E. reflexivity.
    + exact IH.
Qed.






(** ** Normalisation of a metric *)

Lemma float_pos_nonzero (t : float) :
  PrimFloat.ltb 0 t = true -> PrimFloat.eqb t 0 = false.
Proof.
  rewrite FloatAxioms.ltb_spec, FloatAxioms.eqb_spec.
  change (Prim2SF 0) with (S754_zero false).
  destruct (Prim2SF t) as [[]|[]| |[] m e]; cbn; congruence.
Qed.

Lemma float_sub_zero (x : float) : PrimFloat.sub x 0 = x.
Proof.
  apply Prim2SF_inj. rewrite FloatAxioms.sub_spec.
  change (Prim2SF 0) with (S754_zero false).
  destruct (Prim2SF x) as [[]|[]| |]; reflexivity.
Qed.

(** What [add_test_info] hands to the sinks for an in-scope metric that
    can be normalised: to a configured local store with a resolved
    environment, the row with the memory delta and the CPU ratio; to an
    enabled remote sink with a resolved environment, the payload with the
    same two values. The local write is made whatever the remote side
    does afterwards. *)
Lemma add_test_info_recorded {rt : PyRuntime} :
  forall (s : state) (item item_path item_variant item_loc kind component : string)
         (item_start_time total_time user_time kernel_time mem_usage : float)
         (base : float) (iso final : string),
    Str.mem kind (self_scope s) = true ->
    self_mem_usage_base s = Some base ->
    PrimFloat.eqb total_time 0 = false ->
    fromtimestamp_isoformat item_start_time = Some iso ->
    format_user_component (self_component s) component = Some final ->
    let r := add_test_info item item_path item_variant item_loc kind component
               item_start_time total_time user_time kernel_time mem_usage s in
    (forall store env_id,
        self_db s = Some store -> db_env_id s = Some env_id ->
        exists row,
          self_db (snd r) = Some (DBHandler.insert_metric store row)
          /\ mr_item row = item
          /\ mr_mem_usage row = PrimFloat.sub mem_usage base
          /\ mr_cpu_usage row
             = PrimFloat.div (PrimFloat.add user_time kernel_time) total_time)
    /\ (remote_enabled s = true -> is_None (remote_env_id s) = false ->
        exists payload answer,
          exchanged (snd r)
          = ({| rq_method := POST; rq_base := str_of (self_remote s);
                rq_endpoint := Metrics; rq_json := JObj payload |}, answer)
              :: exchanged s
          /\ Dict.get payload "item" = Some (JStr item)
          /\ Dict.get payload "mem_usage"
             = Some (JFloat (PrimFloat.sub mem_usage base))
          /\ Dict.get payload "cpu_usage"
             = Some (JFloat (PrimFloat.div (PrimFloat.add user_time kernel_time)
                               total_time))).
Proof.
  intros s item item_path item_variant item_loc kind component
    item_start_time total_time user_time kernel_time mem_usage
    base iso final Hscope Hbase Htotal Hiso Hfinal r. subst r.
  name_run (add_test_info item item_path item_variant item_loc kind component
              item_start_time total_time user_time kernel_time mem_usage s).
  unfold add_test_info, db_env_id, remote_env_id, remote_enabled.
  unmonad. rewrite Hscope. cbn. rewrite Hbase. cbn. rewrite Htotal. cbn.
  rewrite Hiso. cbn. rewrite Hfinal. cbn.
  exec; end_run; (split;
    [ intros store env_id Hdb Henv; try discriminate; try congruence;
      injection Hdb as <-; try injection Henv as <-;
      eexists; repeat split; reflexivity
    | intros Hen Hnone; try discriminate; try congruence;
      eexists; eexists; repeat split; reflexivity ]).
Qed.

Lemma add_test_info_keeps_baseline {rt : PyRuntime} :
  forall (s : state) (item item_path item_variant item_loc kind component : string)
         (item_start_time total_time user_time kernel_time mem_usage : float),
    self_mem_usage_base
      (snd (add_test_info item item_path item_variant item_loc kind component
              item_start_time total_time user_time kernel_time mem_usage s))
    = self_mem_usage_base s.
Proof.
  intros. unfold add_test_info, db_env_id, remote_env_id. exec; congruence.
Qed.

(** C5. The memory usage recorded for a metric is the raw reading minus
    the baseline. (1) [prepare] stores as baseline the reading of the
    memory profiler, the first one if it gave a list. (2) [add_test_info]
    leaves the baseline as it is. (3) For an in-scope metric that can be
    normalised, the row inserted in the local store and the payload sent
    to the remote sink both carry [mem_usage - baseline]. (4) A raw
    reading of 120.0 over a baseline of 100.0 gives 20.0, and over a
    baseline of 0 any reading gives itself. *)
Theorem memory_usage_is_raw_minus_baseline {rt : PyRuntime} :
  (forall (b : float) (l : list float) (s : state),
      prepare (MemValue b) s = (Ok tt, set_mem_usage_base (Some b) s)
      /\ prepare (MemList (b :: l)) s = (Ok tt, set_mem_usage_base (Some b) s))
  /\ (forall (s : state) (item item_path item_variant item_loc kind component : string)
             (item_start_time total_time user_time kernel_time mem_usage : float),
        self_mem_usage_base
          (snd (add_test_info item item_path item_variant item_loc kind component
                  item_start_time total_time user_time kernel_time mem_usage s))
        = self_mem_usage_base s)
  /\ (forall (s : state) (item item_path item_variant item_loc kind component : string)
             (item_start_time total_time user_time kernel_time mem_usage : float)
             (base : float) (iso final : string),
        Str.mem kind (self_scope s) = true ->
        self_mem_usage_base s = Some base ->
        PrimFloat.eqb total_time 0 = false ->
        fromtimestamp_isoformat item_start_time = Some iso ->
        format_user_component (self_component s) component = Some final ->
        let r := add_test_info item item_path item_variant item_loc kind component
                   item_start_time total_time user_time kernel_time mem_usage s in
        (forall store env_id,
            self_db s = Some store -> db_env_id s = Some env_id ->
            exists row,
              self_db (snd r) = Some (DBHandler.insert_metric store row)
              /\ mr_item row = item
              /\ mr_mem_usage row = PrimFloat.sub mem_usage base)
        /\ (remote_enabled s = true -> is_None (remote_env_id s) = false ->
            exists payload answer,
              exchanged (snd r)
              = ({| rq_method := POST; rq_base := str_of (self_remote s);
                    rq_endpoint := Metrics; rq_json := JObj payload |}, answer)
                  :: exchanged s
              /\ Dict.get payload "mem_usage"
                 = Some (JFloat (PrimFloat.sub mem_usage base))))
  /\ PrimFloat.sub 120 100 = 20%float
  /\ (forall raw : float, PrimFloat.sub raw 0 = raw).
Proof.
  split; [|split; [|split; [|split]]].
  - intros b l s. split; reflexivity.
  - apply add_test_info_keeps_baseline.
  - intros s item item_path item_variant item_loc kind component
      item_start_time total_time user_time kernel_time mem_usage
      base iso final Hscope Hbase Htotal Hiso Hfinal r.
    destruct (add_test_info_recorded s item item_path item_variant item_loc kind
                component item_start_time total_time user_time kernel_time
                mem_usage base iso final Hscope Hbase Htotal Hiso Hfinal)
      as [Hlocal Hremote].
    split.
    + intros store env_id Hdb Henv.
      destruct (Hlocal store env_id Hdb Henv) as (row & E & Hi & Hm & _).
      exists row. auto.
    + intros Hen Hnone.
      destruct (Hremote Hen Hnone) as (payload & answer & E & _ & Hm & _).
      exists payload, answer. auto.
  - reflexivity.
  - apply float_sub_zero.
Qed.

Lemma memory_usage_is_raw_minus_baseline_witness :
  exists row,
    self_db (snd (add_test_info (rt := example_runtime) "test_a" "pkg.mod" "a-b"
                    "pkg/mod.py" "function" "core" 0%float 1%float 0.6%float
                    0.1%float 120%float (example_state [created])))
    = Some (DBHandler.insert_metric example_store row)
    /\ mr_mem_usage row = 20%float.
Proof.
  destruct (@memory_usage_is_raw_minus_baseline example_runtime)
    as (_ & _ & H3 & H4 & _).
  destruct (H3 (example_state [created]) "test_a" "pkg.mod" "a-b" "pkg/mod.py"
              "function" "core" 0%float 1%float 0.6%float 0.1%float 120%float
              100%float "1970-01-01T00:00:00" "core"
              eq_refl eq_refl eq_refl eq_refl eq_refl) as [Hlocal _].
  destruct (Hlocal example_store "e1" eq_refl eq_refl) as (row & E & _ & Hm).
  exists row. split; [exact E|]. rewrite Hm. exact H4.
Defined.

(** C4, amended. For an in-scope metric with a total time above zero (and
    a calibrated baseline, a start time in range and a component that
    formats), the CPU usage recorded in the local store and sent to the
    remote sink is [(user_time + kernel_time) / total_time] in binary64
    arithmetic; for 0.6, 0.1 and 1.0 that is 0.7. *)
Theorem cpu_usage_is_cpu_time_over_total_time {rt : PyRuntime} :
  (forall (s : state) (item item_path item_variant item_loc kind component : string)
          (item_start_time total_time user_time kernel_time mem_usage : float)
          (base : float) (iso final : string),
      Str.mem kind (self_scope s) = true ->
      self_mem_usage_base s = Some base ->
      PrimFloat.ltb 0 total_time = true ->
      fromtimestamp_isoformat item_start_time = Some iso ->
      format_user_component (self_component s) component = Some final ->
      let r := add_test_info item item_path item_variant item_loc kind component
                 item_start_time total_time user_time kernel_time mem_usage s in
      (forall store env_id,
          self_db s = Some store -> db_env_id s = Some env_id ->
          exists row,
            self_db (snd r) = Some (DBHandler.insert_metric store row)
            /\ mr_item row = item
            /\ mr_cpu_usage row
               = PrimFloat.div (PrimFloat.add user_time kernel_time) total_time)
      /\ (remote_enabled s = true -> is_None (remote_env_id s) = false ->
          exists payload answer,
            exchanged (snd r)
            = ({| rq_method := POST; rq_base := str_of (self_remote s);
                  rq_endpoint := Metrics; rq_json := JObj payload |}, answer)
                :: exchanged s
            /\ Dict.get payload "cpu_usage"
               = Some (JFloat (PrimFloat.div (PrimFloat.add user_time kernel_time)
                                 total_time))))
  /\ PrimFloat.div (PrimFloat.add 0.6 0.1) 1 = 0.7%float.
Proof.
  split; [|reflexivity].
  intros s item item_path item_variant item_loc kind component
    item_start_time total_time user_time kernel_time mem_usage
    base iso final Hscope Hbase Htotal Hiso Hfinal r.
  apply float_pos_nonzero in Htotal.
  destruct (add_test_info_recorded s item item_path item_variant item_loc kind
              component item_start_time total_time user_time kernel_time
              mem_usage base iso final Hscope Hbase Htotal Hiso Hfinal)
    as [Hlocal Hremote].
  split.
  - intros store env_id Hdb Henv.
    destruct (Hlocal store env_id Hdb Henv) as (row & E & Hi & _ & Hc).
    exists row. auto.
  - intros Hen Hnone.
    destruct (Hremote Hen Hnone) as (payload & answer & E & _ & _ & Hc).
    exists payload, answer. auto.
Qed.

Lemma cpu_usage_is_cpu_time_over_total_time_witness :
  exists row,
    self_db (snd (add_test_info (rt := example_runtime) "test_a" "pkg.mod" "a-b"
                    "pkg/mod.py" "function" "core" 0%float 1%float 0.6%float
                    0.1%float 120%float (example_state [created])))
    = Some (DBHandler.insert_metric example_store row)
    /\ mr_cpu_usage row = 0.7%float.
Proof.
  destruct (@cpu_usage_is_cpu_time_over_total_time example_runtime) as (H1 & H2).
  destruct (H1 (example_state [created]) "test_a" "pkg.mod" "a-b" "pkg/mod.py"
              "function" "core" 0%float 1%float 0.6%float 0.1%float 120%float
              100%float "1970-01-01T00:00:00" "core"
              eq_refl eq_refl eq_refl eq_refl eq_refl) as [Hlocal _].
  destruct (Hlocal example_store "e1" eq_refl eq_refl) as (row & E & _ & Hc).
  exists row. split; [exact E|]. rewrite Hc. exact H2.
Defined.

(** C4, as stated, fails at a total time of zero: there the code has no
    policy of its own. It divides, the division raises
    [ZeroDivisionError], and the exception leaves [add_test_info] before
    anything is recorded. *)
Lemma cpu_usage_zero_total_time_raises :
  add_test_info (rt := example_runtime) "test_a" "pkg.mod" "a-b" "pkg/mod.py"
    "function" "core" 0%float 0%float 0.6%float 0.1%float 120%float
    (example_state [created])
  = (Raise ZeroDivisionError, example_state [created]).
Proof. reflexivity. Qed.

(** ** Failures of the transport *)

(** C1 does not hold of the code. A rejected metric is handled as the
    claim says: the call returns, the remote sink is disabled and one
    warning is raised. A failure of the transport is not: the POST is not
    guarded, [ConnectionError] leaves [add_test_info], the remote sink
    stays enabled and no warning is raised. (The row has been written to
    the local store by then.) *)
Theorem add_test_info_transport_error_escapes :
  let rejection :=
    add_test_info (rt := example_runtime) "test_a" "pkg.mod" "a-b"
      "pkg/mod.py" "function" "core" 0%float 1%float 0.6%float 0.1%float
      120%float (example_state [rejected]) in
  let failure :=
    add_test_info (rt := example_runtime) "test_a" "pkg.mod" "a-b"
      "pkg/mod.py" "function" "core" 0%float 1%float 0.6%float 0.1%float
      120%float (example_state [Failed]) in
  (fst rejection = Ok tt
   /\ remote_enabled (snd rejection) = false
   /\ warned (snd rejection) = [CannotInsertValues 500])
  /\ (fst failure = Raise ConnectionError
      /\ remote_enabled (snd failure) = true
      /\ warned (snd failure) = []
      /\ length (local_metrics (snd failure)) = 1).
Proof. cbv zeta. repeat split. Qed.

(** * Further properties *)

(** ** Tags and the description mapping *)

Lemma cut_spec (c : ascii) (s l r : string) :
  Str.cut c s = Some (l, r) -> s = (l ++ String c r)%string /\ Str.contains c l = false.
Proof.
  revert l r. induction s as [|a s IH]; intros l r; cbn; [discriminate|].
  destruct (Ascii.eqb a c) eqn:E.
  - intros [= <- <-]. apply Ascii.eqb_eq in E. subst a. split; reflexivity.
  - destruct (Str.cut c s) as [[l' r']|]; [|discriminate].
    intros [= <- <-]. destruct (IH l' r' eq_refl) as [-> Hc].
    split; [reflexivity|]. cbn. rewrite E. exact Hc.
Qed.

Lemma cut_first (c : ascii) (l r : string) :
  Str.contains c l = false -> Str.cut c (l ++ String c r) = Some (l, r).
Proof.
  induction l as [|a l IH]; cbn.
  - intros _. rewrite Ascii.eqb_refl. reflexivity.
  - destruct (Ascii.eqb a c); [discriminate|].
    intros Hc. rewrite (IH Hc). reflexivity.
Qed.

Lemma split1_key_value (c : ascii) (s k v : string) :
  Str.split1 c s = [k; v]
  <-> (s = (k ++ String c v)%string /\ Str.contains c k = false).
Proof.
  unfold Str.split1. split.
  - destruct (Str.cut c s) as [[l r]|] eqn:E; [|discriminate].
    intros [= <- <-]. apply cut_spec. exact E.
  - intros [-> Hc]. rewrite (cut_first c k v Hc). reflexivity.
Qed.

(** X1. How a tag is read. A tag made of a key without ['='], an ['=']
    and a value assigns the value to the key in the description mapping,
    whatever the value holds, further ['='] signs included; and a tag
    that is accepted is made so, its key being what comes before its
    first ['=']. *)
Theorem set_tag_key_value :
  forall (d : Dict.t string) (k v : string) (s : state),
    Str.contains "=" k = false ->
    set_tag d (k ++ String "=" v) s = (Ok (Dict.set d k v), s)
    /\ forall t d',
         set_tag d t s = (Ok d', s) ->
         exists k' v',
           t = (k' ++ String "=" v')%string
           /\ Str.contains "=" k' = false /\ d' = Dict.set d k' v'.
Proof.
  intros d k v s Hk. split.
  - unfold set_tag.
    assert (E : Str.split1 "=" (k ++ String "=" v) = [k; v])
      by (apply split1_key_value; split; [reflexivity | exact Hk]).
    rewrite E. reflexivity.
  - intros t d'. unfold set_tag, Str.split1.
    destruct (Str.cut "=" t) as [[k' v']|] eqn:E; cbn.
    + intros [= <-]. exists k', v'. apply cut_spec in E. tauto.
    + discriminate.
Qed.

Lemma set_tag_key_value_witness :
  set_tag [("team", "none")] "expr=a=b" (example_state [])
  = (Ok [("team", "none"); ("expr", "a=b")], example_state []).
Proof.
  destruct (set_tag_key_value [("team", "none")] "expr" "a=b" (example_state [])
              eq_refl) as [H _].
  exact H.
Defined.

Lemma dict_get_set_same {V : Type} (d : Dict.t V) (k : string) (v : V) :
  Dict.get (Dict.set d k v) k = Some v.
Proof.
  induction d as [|[k' v'] d IH]; cbn.
  - rewrite String.eqb_refl. reflexivity.
  - destruct (String.eqb k' k) eqn:E; cbn; rewrite E; [reflexivity | exact IH].
Qed.

Lemma dict_get_set_other {V : Type} (d : Dict.t V) (k k' : string) (v : V) :
  k' <> k -> Dict.get (Dict.set d k v) k' = Dict.get d k'.
Proof.
  intros Hk. induction d as [|[k0 v0] d IH]; cbn.
  - destruct (String.eqb_spec k k'); [congruence | reflexivity].
  - destruct (String.eqb_spec k0 k) as [->|Hne]; cbn.
    + destruct (String.eqb_spec k k'); [congruence | reflexivity].
    + destruct (String.eqb k0 k'); [reflexivity | exact IH].
Qed.

Lemma last_value_app (k : string) (l1 l2 : list string) :
  last_value k (l1 ++ l2)
  = match last_value k l2 with
    | Some v => Some v
    | None => last_value k l1
    end.
Proof.
  induction l1 as [|t l1 IH]; cbn.
  - destruct (last_value k l2); reflexivity.
  - rewrite IH. destruct (last_value k l2); reflexivity.
Qed.

Lemma set_tag_merges (d : Dict.t string) (t : string) (s : state) :
  Str.contains "=" t = true ->
  exists d',
    set_tag d t s = (Ok d', s)
    /\ forall k, Dict.get d' k
                 = match last_value k [t] with
                   | Some v => Some v
                   | None => Dict.get d k
                   end.
Proof.
  intros Hc. unfold set_tag, Str.split1. cbn [last_value].
  destruct (Str.cut "=" t) as [[k0 v0]|] eqn:E.
  - eexists. split; [reflexivity|]. intros k.
    destruct (String.eqb_spec k0 k) as [->|Hne].
    + apply dict_get_set_same.
    + apply dict_get_set_other. congruence.
  - apply cut_contains in E. congruence.
Qed.

Lemma for_sub_tags_merges (l : list string) :
  forall (d : Dict.t string) (s : state),
    Forall (fun t => Str.contains "=" t = true) l ->
    exists d',
      for_sub_tags l d s = (Ok d', s)
      /\ forall k, Dict.get d' k
                   = match last_value k l with
                     | Some v => Some v
                     | None => Dict.get d k
                     end.
Proof.
  induction l as [|t l IH]; intros d s Hall.
  - exists d. split; reflexivity.
  - inversion Hall as [|? ? Ht Hl]; subst.
    destruct (set_tag_merges d t s Ht) as (d1 & E1 & G1).
    destruct (IH d1 s Hl) as (d2 & E2 & G2).
    exists d2. split.
    + cbn [for_sub_tags]. unfold bind. rewrite E1. exact E2.
    + intros k. rewrite G2, G1.
      change (t :: l) with ([t] ++ l). rewrite last_value_app.
      destruct (last_value k l); reflexivity.
Qed.

Lemma for_tags_merges (tags : list tag) :
  forall (d : Dict.t string) (s : state),
    Forall (fun t => Str.contains "=" t = true) (flat_tags tags) ->
    exists d',
      for_tags tags d s = (Ok d', s)
      /\ forall k, Dict.get d' k
                   = match last_value k (flat_tags tags) with
                     | Some v => Some v
                     | None => Dict.get d k
                     end.
Proof.
  induction tags as [|t tags IH]; intros d s Hall.
  - exists d. split; reflexivity.
  - change (flat_tags (t :: tags)) with (sub_tags t ++ flat_tags tags) in *.
    apply Forall_app in Hall. destruct Hall as [Ht Hl].
    assert (H1 : exists d1,
               (match t with
                | Single x => set_tag d x
                | Group l => for_sub_tags l d
                end) s = (Ok d1, s)
               /\ forall k, Dict.get d1 k
                            = match last_value k (sub_tags t) with
                              | Some v => Some v
                              | None => Dict.get d k
                              end).
    { destruct t as [x|l]; cbn [sub_tags] in *.
      - apply set_tag_merges. inversion Ht; assumption.
      - apply for_sub_tags_merges. exact Ht. }
    destruct H1 as (d1 & E1 & G1).
    destruct (IH d1 s Hl) as (d2 & E2 & G2).
    exists d2. split.
    + destruct t as [x|l]; cbn [for_tags]; unfold bind; rewrite E1; exact E2.
    + intros k. rewrite G2, G1, last_value_app.
      destruct (last_value k (flat_tags tags)); reflexivity.
Qed.

(** X2. The tag loops of [compute_info], when every tag has its ['=']:
    they end with a mapping in which each key named by a tag reads the
    value of the last tag naming it, nested sequences taken in place, and
    every other key reads what it read before. So a later tag overwrites
    an earlier one, and a tag overwrites the CI metadata and the
    description under the same key. *)
Theorem for_tags_last_tag_wins (tags : list tag) :
  forall (d : Dict.t string) (s : state),
    Forall (fun t => Str.contains "=" t = true) (flat_tags tags) ->
    exists d',
      for_tags tags d s = (Ok d', s)
      /\ forall k, Dict.get d' k
                   = match last_value k (flat_tags tags) with
                     | Some v => Some v
                     | None => Dict.get d k
                     end.
Proof. exact (for_tags_merges tags). Qed.

Lemma for_tags_last_tag_wins_witness :
  exists d',
    for_tags
      [Single "team=core"; Group ["os=linux"; "team=infra"]]
      [("description", "nightly"); ("team", "none")] (example_state [])
    = (Ok d', example_state [])
    /\ Dict.get d' "team" = Some "infra"
    /\ Dict.get d' "description" = Some "nightly".
Proof.
  destruct (for_tags_last_tag_wins
              [Single "team=core"; Group ["os=linux"; "team=infra"]]
              [("description", "nightly"); ("team", "none")] (example_state []))
    as (d' & E & G).
  - cbn. repeat constructor.
  - exists d'. split; [exact E|]. split; rewrite G; reflexivity.
Defined.

(** ** What every call keeps *)

Lemma grows_refl {A : Type} (l : list A) : grows l l.
Proof. exists []. symmetry. apply app_nil_r. Qed.

Lemma grows_trans {A : Type} (l1 l2 l3 : list A) :
  grows l1 l2 -> grows l2 l3 -> grows l1 l3.
Proof.
  intros [m1 ->] [m2 ->]. exists (m1 ++ m2). symmetry. apply app_assoc.
Qed.

Lemma grows_one {A : Type} (l : list A) (x : A) : grows l (l ++ [x]).
Proof. exists [x]. reflexivity. Qed.

Lemma append_only_refl (s : state) : append_only s s.
Proof.
  unfold append_only. destruct (self_db s); auto using grows_refl.
Qed.

Lemma append_only_trans (s1 s2 s3 : state) :
  append_only s1 s2 -> append_only s2 s3 -> append_only s1 s3.
Proof.
  unfold append_only.
  destruct (self_db s1), (self_db s2), (self_db s3); try tauto.
  intros (C1 & S1 & M1) (C2 & S2 & M2).
  repeat split; eapply grows_trans; eassumption.
Qed.

Lemma warned_once_refl (s : state) : warned_once s s.
Proof. left. split; reflexivity. Qed.

Lemma warned_once_trans (s1 s2 s3 : state) :
  warned_once s1 s2 -> warned_once s2 s3 -> warned_once s1 s3.
Proof.
  unfold warned_once, remote_enabled.
  intros [[W1 R1]|(w1 & W1 & U1 & D1)] [[W2 R2]|(w2 & W2 & U2 & D2)].
  - left. split; congruence.
  - right. exists w2. repeat split; congruence.
  - right. exists w1. repeat split; congruence.
  - congruence.
Qed.

Lemma settled_refl (s : state) : settled s s.
Proof.
  repeat split; auto using append_only_refl, warned_once_refl. apply Z.le_refl.
Qed.

Lemma settled_trans (s1 s2 s3 : state) :
  settled s1 s2 -> settled s2 s3 -> settled s1 s3.
Proof.
  intros (A1 & C1 & T1 & O1 & W1) (A2 & C2 & T2 & O2 & W2).
  repeat split.
  - eapply append_only_trans; eassumption.
  - congruence.
  - congruence.
  - eapply Z.le_trans; eassumption.
  - eapply warned_once_trans; eassumption.
Qed.

(** Close a goal [settled s s'] on states that are given in full. *)
Ltac settled_close :=
  unfold settled, append_only, warned_once, remote_enabled in *; cbn in *;
  repeat match goal with
         | H : self_db ?x = _ |- context [self_db ?x] => rewrite H
         end;
  repeat match goal with
         | |- context [match self_db ?x with _ => _ end] =>
             destruct (self_db x) eqn:?
         end;
  cbn;
  repeat match goal with
         | |- _ /\ _ => split
         | |- grows ?l ?l => apply grows_refl
         | |- grows ?l (?l ++ [_]) => apply grows_one
         | |- True => exact I
         | |- _ = _ => reflexivity
         | |- (_ <= _)%Z => lia
         | |- _ \/ _ =>
             first [ left; split; reflexivity
                   | right; eexists; repeat split;
                     first [reflexivity | assumption] ]
         end.

Lemma get_env_id_settled {rt : PyRuntime} (env : ExecutionContext) (s : state) :
  settled s (snd (get_env_id env s)).
Proof.
  unfold get_env_id, getitem_key, getitem_0. exec; settled_close.
Qed.

Lemma set_environment_info_settled {rt : PyRuntime}
    (env : ExecutionContext) (s : state) :
  settled s (snd (set_environment_info env s)).
Proof.
  unfold set_environment_info. unfold bind at 1.
  pose proof (get_env_id_settled env s) as H1.
  destruct (get_env_id env s) as [[eid|e] s1]; cbn in H1; [|exact H1].
  eapply settled_trans; [exact H1|]. clear H1.
  unfold getitem_key. destruct eid as [db_id remote_id].
  exec; settled_close.
Qed.

Lemma compute_info_settled {rt : PyRuntime}
    (h : host) (description : string) (tags : list tag) (s : state) :
  settled s (snd (compute_info h description tags s)).
Proof.
  unfold compute_info. unmonad.
  match goal with
  | |- context [for_tags tags ?d ?s0] =>
      destruct (for_tags_pure tags d) as [o Ho]; rewrite (Ho s0)
  end.
  destruct o as [d|e]; [|solve [settled_close]].
  unfold prepare. unmonad.
  destruct (memuse h) as [[|b l]|b]; cbn [nth_error]; try solve [settled_close].
  all: match goal with
       | |- context [set_environment_info ?env ?s0] =>
           pose proof (set_environment_info_settled env s0) as H1;
           destruct (set_environment_info env s0) as [[[]|e] s1]; cbn in H1;
           (eapply settled_trans with (s2 := s0); [settled_close|]);
           (eapply settled_trans; [exact H1|]); clear H1
       end.
  all: exec; settled_close.
Qed.

Lemma run_settled {rt : PyRuntime} (c : call) (s : state) :
  settled s (snd (run c s)).
Proof.
  destruct c; cbn [run].
  - apply compute_info_settled.
  - apply set_environment_info_settled.
  - pose proof (get_env_id_settled env s) as H1.
    destruct (get_env_id env s) as [[a|e] s1]; exact H1.
  - unfold prepare. exec; settled_close.
  - unfold add_test_info, remote_env_id, db_env_id. exec; settled_close.
  - unfold add_system_memory_snapshot. exec; settled_close.
  - exec; settled_close.
Qed.

Lemma run_all_settled {rt : PyRuntime} (cs : list call) :
  forall s, settled s (run_all cs s).
Proof.
  induction cs as [|c cs IH]; intros s; cbn [run_all].
  - apply settled_refl.
  - eapply settled_trans; [apply run_settled | apply IH].
Qed.

(** X3. The local store is append-only. Over any sequence of calls a
    configured store stays configured, and each of its three tables at the
    end is the table at the start with rows added after it: no row is
    ever changed, moved or deleted. A session without a store never gets
    one. *)
Theorem local_store_is_append_only {rt : PyRuntime} :
  forall (cs : list call) (s : state),
    (forall store,
        self_db s = Some store ->
        exists store',
          self_db (run_all cs s) = Some store'
          /\ grows (DBHandler.EXECUTION_CONTEXTS store)
               (DBHandler.EXECUTION_CONTEXTS store')
          /\ grows (DBHandler.TEST_SESSIONS store) (DBHandler.TEST_SESSIONS store')
          /\ grows (DBHandler.TEST_METRICS store) (DBHandler.TEST_METRICS store'))
    /\ (self_db s = None -> self_db (run_all cs s) = None).
Proof.
  intros cs s. destruct (run_all_settled cs s) as (Ha & _).
  unfold append_only in Ha. split.
  - intros store Hdb. rewrite Hdb in Ha.
    destruct (self_db (run_all cs s)) as [store'|]; [|contradiction].
    exists store'. split; [reflexivity | exact Ha].
  - intros Hdb. rewrite Hdb in Ha.
    destruct (self_db (run_all cs s)); [contradiction | reflexivity].
Qed.

Lemma local_store_is_append_only_witness :
  exists store',
    self_db (run_all (rt := example_runtime)
               [example_metric; example_snapshot; example_metric]
               (example_state [created; rejected]))
    = Some store'
    /\ grows (DBHandler.TEST_METRICS example_store) (DBHandler.TEST_METRICS store').
Proof.
  destruct (@local_store_is_append_only example_runtime
              [example_metric; example_snapshot; example_metric]
              (example_state [created; rejected])) as [H _].
  destruct (H example_store eq_refl) as (store' & E & _ & _ & G).
  exists store'. split; assumption.
Defined.

(** X4. A warning is raised only when the remote sink is disabled, and so
    at most once. Over any sequence of calls, either no warning is raised
    and [self.__remote] is at the end what it was at the start, or exactly
    one warning is raised, the remote sink was enabled at the start and is
    disabled at the end. *)
Theorem at_most_one_warning {rt : PyRuntime} :
  forall (cs : list call) (s : state),
    (warned (run_all cs s) = warned s
     /\ self_remote (run_all cs s) = self_remote s)
    \/ (exists w,
          warned (run_all cs s) = w :: warned s
          /\ remote_enabled s = true
          /\ remote_enabled (run_all cs s) = false).
Proof.
  intros cs s. destruct (run_all_settled cs s) as (_ & _ & _ & _ & Hw).
  exact Hw.
Qed.

(** X5. No call changes the component template or the tracing switch, and
    the test-order counter never goes down: over any sequence of calls
    both settings are at the end what they were at the start and the
    counter is at least what it was. *)
Theorem settings_stay_and_test_order_grows {rt : PyRuntime} :
  forall (cs : list call) (s : state),
    self_component (run_all cs s) = self_component s
    /\ monitoring_enabled (run_all cs s) = monitoring_enabled s
    /\ (test_order s <= test_order (run_all cs s))%Z.
Proof.
  intros cs s. destruct (run_all_settled cs s) as (_ & Hc & Ht & Ho & _).
  unfold monitoring_enabled, test_order. auto.
Qed.

(** ** The test order *)

Lemma add_system_memory_snapshot_unset (p : probe) (item_path item : string) (s : state) :
  remote_enabled s = false ->
  add_system_memory_snapshot p item_path item s = (Ok tt, s).
Proof.
  intros Hd. unfold remote_enabled in Hd.
  unfold add_system_memory_snapshot. unmonad. rewrite Hd. reflexivity.
Qed.

Lemma add_system_memory_snapshot_counts (p : probe) (item_path item : string) (s : state) :
  remote_enabled s = true ->
  let s' := snd (add_system_memory_snapshot p item_path item s) in
  self_test_order s' = (self_test_order s + 1)%Z
  /\ self_remote s' = self_remote s
  /\ exists payload answer,
       exchanged s'
       = ({| rq_method := POST; rq_base := str_of (self_remote s);
             rq_endpoint := SystemMemory; rq_json := JObj payload |}, answer)
           :: exchanged s
       /\ Dict.get payload "test_order" = Some (JInt (self_test_order s + 1))
       /\ Dict.get payload "session_h" = Some (JStr (self_session s)).
Proof.
  intros He. unfold remote_enabled in He.
  name_run (add_system_memory_snapshot p item_path item s).
  unfold add_system_memory_snapshot. unmonad. rewrite He. cbn.
  exec; end_run; repeat split; eexists; eexists; repeat split; reflexivity.
Qed.

(** X6. The test order counts the snapshots. From a state with the remote
    sink enabled, a run of [n] calls of [add_system_memory_snapshot] ends
    with the counter [n] higher, with [n] more requests made and with the
    sink still enabled, whatever the service answers; each request carries
    the value of the counter after its own increment. From a state with
    the sink unset or disabled the same run changes nothing. *)
Theorem test_order_counts_snapshots {rt : PyRuntime} :
  forall (l : list (probe * string * string)) (s : state),
    (remote_enabled s = true ->
     test_order (run_all (snapshots l) s) = (test_order s + Z.of_nat (length l))%Z
     /\ length (exchanged (run_all (snapshots l) s))
        = (length (exchanged s) + length l)%nat
     /\ self_remote (run_all (snapshots l) s) = self_remote s)
    /\ (remote_enabled s = false -> run_all (snapshots l) s = s)
    /\ (forall p item_path item,
           remote_enabled s = true ->
           exists payload answer,
             exchanged (snd (add_system_memory_snapshot p item_path item s))
             = ({| rq_method := POST; rq_base := str_of (self_remote s);
                   rq_endpoint := SystemMemory; rq_json := JObj payload |}, answer)
                 :: exchanged s
             /\ Dict.get payload "test_order" = Some (JInt (test_order s + 1))).
Proof.
  intros l s. unfold test_order. split; [|split].
  - revert s. induction l as [|[[p item_path] item] l IH]; intros s He.
    + cbn. rewrite Z.add_0_r, Nat.add_0_r. auto.
    + cbn [snapshots map run_all run fst snd].
      destruct (add_system_memory_snapshot_counts p item_path item s He)
        as (Ht & Hr & payload & answer & Hx & _).
      assert (He' : remote_enabled
                      (snd (add_system_memory_snapshot p item_path item s)) = true)
        by (unfold remote_enabled in *; rewrite Hr; exact He).
      destruct (IH _ He') as (T & X & R).
      fold (snapshots l). rewrite T, X, R, Ht, Hr, Hx. cbn [length].
      repeat split; lia.
  - revert s. induction l as [|[[p item_path] item] l IH]; intros s Hd;
      [reflexivity|].
    cbn [snapshots map run_all run fst snd].
    rewrite (add_system_memory_snapshot_unset p item_path item s Hd).
    cbn [snd]. apply IH. exact Hd.
  - intros p item_path item He.
    destruct (add_system_memory_snapshot_counts p item_path item s He)
      as (_ & _ & payload & answer & Hx & Ho & _).
    exists payload, answer. auto.
Qed.

Lemma test_order_counts_snapshots_witness :
  test_order (run_all (rt := example_runtime)
                (snapshots [(example_probe, "pkg.mod", "test_a");
                            (example_probe, "pkg.mod", "test_b");
                            (example_probe, "pkg.mod", "test_c")])
                (example_state [created; rejected])) = 3%Z.
Proof.
  destruct (@test_order_counts_snapshots example_runtime
              [(example_probe, "pkg.mod", "test_a");
               (example_probe, "pkg.mod", "test_b");
               (example_probe, "pkg.mod", "test_c")]
              (example_state [created; rejected])) as (H & _).
  destruct (H eq_refl) as (T & _). exact T.
Defined.

(** ** The dispatch of a metric *)



(** X8. The two guards of the dispatch, for an in-scope metric that can
    be normalised. Without a store, or without a resolved local
    environment, the local store is left as it is. With the remote sink
    unset or disabled, or without a resolved remote environment, the call
    returns, makes no request, leaves [self.__remote] as it is and raises
    no warning. *)
Theorem add_test_info_dispatch_guards {rt : PyRuntime} :
  forall (s : state) (item item_path item_variant item_loc kind component : string)
         (item_start_time total_time user_time kernel_time mem_usage : float)
         (base : float) (iso final : string),
    Str.mem kind (self_scope s) = true ->
    self_mem_usage_base s = Some base ->
    PrimFloat.eqb total_time 0 = false ->
    fromtimestamp_isoformat item_start_time = Some iso ->
    format_user_component (self_component s) component = Some final ->
    let r := add_test_info item item_path item_variant item_loc kind component
               item_start_time total_time user_time kernel_time mem_usage s in
    (self_db s = None \/ db_env_id s = None -> self_db (snd r) = self_db s)
    /\ (remote_enabled s = false \/ remote_env_id s = JNull ->
        fst r = Ok tt
        /\ exchanged (snd r) = exchanged s
        /\ self_remote (snd r) = self_remote s
        /\ warned (snd r) = warned s).
Proof.
  intros s item item_path item_variant item_loc kind component
    item_start_time total_time user_time kernel_time mem_usage
    base iso final Hscope Hbase Htotal Hiso Hfinal r. subst r.
  name_run (add_test_info item item_path item_variant item_loc kind component
              item_start_time total_time user_time kernel_time mem_usage s).
  unfold add_test_info, db_env_id, remote_env_id, remote_enabled.
  unmonad. rewrite Hscope. cbn. rewrite Hbase. cbn. rewrite Htotal. cbn.
  rewrite Hiso. cbn. rewrite Hfinal. cbn.
  exec; end_run; (split;
    [ intros [Hx|Hx]; try reflexivity; congruence
    | intros [Hx|Hx]; try congruence;
      try (rewrite Hx in *; discriminate);
      repeat split ]).
Qed.

Lemma add_test_info_dispatch_guards_witness :
  fst (add_test_info (rt := example_runtime) "test_a" "pkg.mod" "a-b" "pkg/mod.py"
         "function" "core" 0%float 1%float 0.6%float 0.1%float 120%float
         (set_eid (None, JNull) (example_state [created]))) = Ok tt
  /\ self_db
       (snd (add_test_info (rt := example_runtime) "test_a" "pkg.mod" "a-b"
               "pkg/mod.py" "function" "core" 0%float 1%float 0.6%float 0.1%float
               120%float (set_eid (None, JNull) (example_state [created]))))
     = Some example_store.
Proof.
  destruct (@add_test_info_dispatch_guards example_runtime
              (set_eid (None, JNull) (example_state [created]))
              "test_a" "pkg.mod" "a-b" "pkg/mod.py" "function" "core"
              0%float 1%float 0.6%float 0.1%float 120%float
              100%float "1970-01-01T00:00:00" "core"
              eq_refl eq_refl eq_refl eq_refl eq_refl) as (Hl & Hr).
  split.
  - apply Hr. right. reflexivity.
  - rewrite Hl; [reflexivity|]. right. reflexivity.
Defined.

(** What the answer to the POST of a metric does. *)
Lemma add_test_info_answered {rt : PyRuntime} :
  forall (s : state) (item item_path item_variant item_loc kind component : string)
         (item_start_time total_time user_time kernel_time mem_usage : float)
         (base : float) (iso final : string) (a : response) (sv : list http_outcome),
    Str.mem kind (self_scope s) = true ->
    self_mem_usage_base s = Some base ->
    PrimFloat.eqb total_time 0 = false ->
    fromtimestamp_isoformat item_start_time = Some iso ->
    format_user_component (self_component s) component = Some final ->
    remote_enabled s = true ->
    is_None (remote_env_id s) = false ->
    server s = Responded a :: sv ->
    let r := add_test_info item item_path item_variant item_loc kind component
               item_start_time total_time user_time kernel_time mem_usage s in
    fst r = Ok tt
    /\ server (snd r) = sv
    /\ length (exchanged (snd r)) = S (length (exchanged s))
    /\ (status_code a = CREATED ->
        self_remote (snd r) = self_remote s /\ warned (snd r) = warned s)
    /\ (status_code a <> CREATED ->
        self_remote (snd r) = Some ""
        /\ warned (snd r) = CannotInsertValues (status_code a) :: warned s).
Proof.
  intros s item item_path item_variant item_loc kind component
    item_start_time total_time user_time kernel_time mem_usage
    base iso final a sv Hscope Hbase Htotal Hiso Hfinal Hen Hid Hsv r. subst r.
  name_run (add_test_info item item_path item_variant item_loc kind component
              item_start_time total_time user_time kernel_time mem_usage s).
  unfold add_test_info, db_env_id, remote_env_id, remote_enabled in *.
  unmonad. rewrite Hscope. cbn. rewrite Hbase. cbn. rewrite Htotal. cbn.
  rewrite Hiso. cbn. rewrite Hfinal. cbn.
  exec; try congruence; end_run;
    repeat match goal with
           | H : Z.eqb _ _ = true |- _ => apply Z.eqb_eq in H
           | H : Z.eqb _ _ = false |- _ => apply Z.eqb_neq in H
           | H : server _ = _ |- _ => rewrite H in *
           | H : _ :: _ = _ :: _ |- _ => injection H as <- <-
           end;
    repeat split; try reflexivity; intros; congruence.
Qed.

(** X9. What the answer to the POST of a metric does, for an in-scope
    metric that can be normalised and whose payload serialises (the
    times, the CPU usage and the memory delta are finite, the remote
    environment identifier holds no infinity or NaN), with the remote
    sink enabled and the remote environment resolved. Whatever the
    status, the call returns and has made the one request. On CREATED the
    sink stays as it is and no warning is raised; on any other status
    [self.__remote] becomes the empty string and the one warning raised
    carries that status. *)
Theorem add_test_info_remote_answer {rt : PyRuntime} :
  forall (s : state) (item item_path item_variant item_loc kind component : string)
         (item_start_time total_time user_time kernel_time mem_usage : float)
         (base : float) (iso final : string) (a : response) (sv : list http_outcome),
    Str.mem kind (self_scope s) = true ->
    self_mem_usage_base s = Some base ->
    PrimFloat.eqb total_time 0 = false ->
    fromtimestamp_isoformat item_start_time = Some iso ->
    format_user_component (self_component s) component = Some final ->
    metric_serialises (remote_env_id s) total_time user_time kernel_time
      mem_usage base ->
    remote_enabled s = true ->
    is_None (remote_env_id s) = false ->
    server s = Responded a :: sv ->
    let r := add_test_info item item_path item_variant item_loc kind component
               item_start_time total_time user_time kernel_time mem_usage s in
    fst r = Ok tt
    /\ server (snd r) = sv
    /\ length (exchanged (snd r)) = S (length (exchanged s))
    /\ (status_code a = CREATED ->
        self_remote (snd r) = self_remote s /\ warned (snd r) = warned s)
    /\ (status_code a <> CREATED ->
        self_remote (snd r) = Some ""
        /\ warned (snd r) = CannotInsertValues (status_code a) :: warned s).
Proof.
  intros s item item_path item_variant item_loc kind component
    item_start_time total_time user_time kernel_time mem_usage
    base iso final a sv Hscope Hbase Htotal Hiso Hfinal _ Hen Hid Hsv.
  exact (@add_test_info_answered rt s item item_path item_variant item_loc kind
           component item_start_time total_time user_time kernel_time mem_usage
           base iso final a sv Hscope Hbase Htotal Hiso Hfinal Hen Hid Hsv).
Qed.

Lemma add_test_info_remote_answer_witness :
  self_remote
    (snd (add_test_info (rt := example_runtime) "test_a" "pkg.mod" "a-b"
            "pkg/mod.py" "function" "core" 0%float 1%float 0.6%float 0.1%float
            120%float (example_state [answered 503 "unavailable"; created])))
  = Some ""
  /\ warned
       (snd (add_test_info (rt := example_runtime) "test_a" "pkg.mod" "a-b"
               "pkg/mod.py" "function" "core" 0%float 1%float 0.6%float 0.1%float
               120%float (example_state [answered 503 "unavailable"; created])))
     = [CannotInsertValues 503].
Proof.
  destruct (@add_test_info_remote_answer example_runtime
              (example_state [answered 503 "unavailable"; created])
              "test_a" "pkg.mod" "a-b" "pkg/mod.py" "function" "core"
              0%float 1%float 0.6%float 0.1%float 120%float
              100%float "1970-01-01T00:00:00" "core"
              {| status_code := 503; text := "unavailable" |} [created]
              eq_refl eq_refl eq_refl eq_refl eq_refl)
    as (_ & _ & _ & _ & H).
  - repeat split.
  - reflexivity.
  - reflexivity.
  - reflexivity.
  - apply H. discriminate.
Defined.

(** X10. The local write of a metric does not depend on the remote side.
    Whatever the address of the remote sink, its health, the remote
    environment identifier, the answers of the service and the exchanges
    so far, the local store after [add_test_info] is the one the call
    leaves with the original session. *)
Theorem add_test_info_local_write_ignores_remote {rt : PyRuntime} :
  forall (s : state) (item item_path item_variant item_loc kind component : string)
         (item_start_time total_time user_time kernel_time mem_usage : float)
         (remote : option string) (remote_id : json)
         (sv : list http_outcome) (ex : list (http_request * http_outcome)),
    self_db
      (snd (add_test_info item item_path item_variant item_loc kind component
              item_start_time total_time user_time kernel_time mem_usage
              (set_http sv ex (set_remote remote (set_eid (db_env_id s, remote_id) s)))))
    = self_db
        (snd (add_test_info item item_path item_variant item_loc kind component
                item_start_time total_time user_time kernel_time mem_usage s)).
Proof.
  intros. unfold add_test_info, db_env_id, remote_env_id, Str.mem.
  exec; congruence.
Qed.

(** ** The fields of a metric row *)

Lemma contains_append (c : ascii) (a b : string) :
  Str.contains c (a ++ b) = Str.contains c a || Str.contains c b.
Proof.
  induction a as [|x a IH]; cbn; [reflexivity|].
  destruct (Ascii.eqb x c); [reflexivity | exact IH].
Qed.

Lemma replace_removes (c : ascii) (t s : string) :
  Str.contains c t = false -> Str.contains c (Str.replace c t s) = false.
Proof.
  intros Ht. induction s as [|a s IH]; cbn; [reflexivity|].
  destruct (Ascii.eqb a c) eqn:E.
  - rewrite contains_append, Ht, IH. reflexivity.
  - cbn. rewrite E. exact IH.
Qed.

Lemma endswith_drop_last (c : ascii) (s : string) :
  Str.endswith c s = true -> s = (Str.drop_last s ++ String c "")%string.
Proof.
  induction s as [|a s IH]; cbn; [discriminate|].
  destruct s as [|b s'].
  - intros E. apply Ascii.eqb_eq in E. subst a. reflexivity.
  - intros E. rewrite (IH E) at 1. reflexivity.
Qed.

(** X11. The row that [add_test_info] inserts for an in-scope metric that
    can be normalised, in a store with a resolved environment. It holds
    the session and environment identifiers of the session, the formatted
    start time, and the item, path, location, kind and three times as
    given. Its variant is the given one with every ['-'] replaced by a
    comma and a space, so it holds no ['-']. Its component is the
    formatted one without its last character if that is a dot (one dot
    only), and the formatted one otherwise. *)
Theorem add_test_info_row {rt : PyRuntime} :
  forall (s : state) (item item_path item_variant item_loc kind component : string)
         (item_start_time total_time user_time kernel_time mem_usage : float)
         (base : float) (iso final : string) (store : DBHandler.t) (env_id : string),
    Str.mem kind (self_scope s) = true ->
    self_mem_usage_base s = Some base ->
    PrimFloat.eqb total_time 0 = false ->
    fromtimestamp_isoformat item_start_time = Some iso ->
    format_user_component (self_component s) component = Some final ->
    self_db s = Some store ->
    db_env_id s = Some env_id ->
    exists row,
      self_db (snd (add_test_info item item_path item_variant item_loc kind component
                      item_start_time total_time user_time kernel_time mem_usage s))
      = Some (DBHandler.insert_metric store row)
      /\ (mr_session_h row = self_session s /\ mr_env_id row = env_id
          /\ mr_item_start_time row = iso)
      /\ (mr_item row = item /\ mr_item_path row = item_path
          /\ mr_item_loc row = item_loc /\ mr_kind row = kind)
      /\ (mr_total_time row = total_time /\ mr_user_time row = user_time
          /\ mr_kernel_time row = kernel_time)
      /\ (mr_item_variant row = Str.replace "-" ", " item_variant
          /\ Str.contains "-" (mr_item_variant row) = false)
      /\ (if Str.endswith "." final
          then final = (mr_component row ++ ".")%string
          else mr_component row = final).
Proof.
  intros s item item_path item_variant item_loc kind component
    item_start_time total_time user_time kernel_time mem_usage
    base iso final store env_id Hscope Hbase Htotal Hiso Hfinal Hdb Henv.
  name_run (add_test_info item item_path item_variant item_loc kind component
              item_start_time total_time user_time kernel_time mem_usage s).
  unfold add_test_info, db_env_id, remote_env_id in *.
  unmonad. rewrite Hscope. cbn. rewrite Hbase. cbn. rewrite Htotal. cbn.
  rewrite Hiso. cbn. rewrite Hfinal. cbn. rewrite Hdb. cbn. rewrite Henv. cbn.
  pose proof (replace_removes "-" ", " item_variant eq_refl) as Hv.
  pose proof (endswith_drop_last "." final) as Hc.
  destruct (Str.endswith "." final) eqn:Hend;
    exec; end_run; eexists; (split; [reflexivity|]); cbn;
    repeat split; auto.
Qed.

Lemma add_test_info_row_witness :
  exists row,
    self_db (snd (add_test_info (rt := example_runtime) "test_a" "pkg.mod" "a-b"
                    "pkg/mod.py" "function" "core." 0%float 1%float 0.6%float
                    0.1%float 120%float (example_state [created])))
    = Some (DBHandler.insert_metric example_store row)
    /\ mr_item_variant row = "a, b"
    /\ "core." = (mr_component row ++ ".")%string.
Proof.
  destruct (@add_test_info_row example_runtime (example_state [created])
              "test_a" "pkg.mod" "a-b" "pkg/mod.py" "function" "core."
              0%float 1%float 0.6%float 0.1%float 120%float
              100%float "1970-01-01T00:00:00" "core." example_store "e1"
              eq_refl eq_refl eq_refl eq_refl eq_refl eq_refl eq_refl)
    as (row & E & _ & _ & _ & (Hv & _) & Hc).
  exists row. split; [exact E|]. split; [exact Hv | exact Hc].
Defined.

(** ** The lookup of the environment *)

(** X12. [get_env_id] only reads. The state it leaves is the state it
    found but for stdout and for the exchange with the remote service:
    no field of the session object is assigned, no warning is raised, the
    store is not written. It makes one request at most. *)
Theorem get_env_id_only_reads {rt : PyRuntime} :
  forall (env : ExecutionContext) (s : state),
    let s' := snd (get_env_id env s) in
    s' = set_stdout (stdout s') (set_http (server s') (exchanged s') s)
    /\ (exchanged s' = exchanged s
        \/ exists answer,
             exchanged s'
             = ({| rq_method := GET; rq_base := str_of (self_remote s);
                   rq_endpoint := ContextByHash (compute_hash env);
                   rq_json := JNull |}, answer) :: exchanged s).
Proof.
  intros env s.
  destruct s as [db tracing remote component session scope eid base order
                   sv ex out wn].
  cbv zeta.
  match goal with
  | |- context [get_env_id env ?x] => name_run (get_env_id env x)
  end.
  unfold get_env_id, getitem_key, getitem_0.
  exec; end_run; (split; [reflexivity|]);
    first [ left; reflexivity | right; eexists; reflexivity ].
Qed.


(** X13. What [get_env_id] makes of the answer to its lookup, with the
    remote sink enabled. An answer that is not OK, or that is OK with an
    empty list of contexts, gives no remote identifier; an OK answer with
    a non-empty list gives the [h] of its first record. In both cases the
    call returns, with the local identifier of the store beside it, has
    made the one GET, and leaves the sink enabled: a lookup that fails
    does not disable it. *)
Theorem get_env_id_lookup {rt : PyRuntime} :
  forall (env : ExecutionContext) (s : state) (a : response) (sv : list http_outcome),
    remote_enabled s = true ->
    server s = Responded a :: sv ->
    let r := get_env_id env s in
    ((not_registered a -> fst r = Ok (local_lookup s env, JNull))
     /\ (forall x, registered_as a x -> fst r = Ok (local_lookup s env, x)))
    /\ (not_registered a \/ (exists x, registered_as a x) ->
        exchanged (snd r) = (lookup_request s env, Responded a) :: exchanged s
        /\ server (snd r) = sv
        /\ self_remote (snd r) = self_remote s
        /\ warned (snd r) = warned s).
Proof.
  intros env s a sv Hen Hsv r. subst r. unfold remote_enabled in Hen.
  remember (get_env_id env s) as r eqn:Hr.
  unfold get_env_id, getitem_key, getitem_0 in Hr.
  unfold local_lookup, lookup_request, not_registered, registered_as.
  unfold OK in *. unmonad. rewrite Hen in Hr. cbn in Hr. rewrite Hsv in Hr. cbn in Hr.
  assert (Hdb : match self_db s with
                | Some store =>
                    match DBHandler.query_env_h store (compute_hash env) with
                    | Some h => Some h
                    | None => None
                    end
                | None => None
                end
                = match self_db s with
                  | Some store => DBHandler.query_env_h store (compute_hash env)
                  | None => None
                  end).
  { destruct (self_db s) as [store|]; [|reflexivity].
    destruct (DBHandler.query_env_h store (compute_hash env)); reflexivity. }
  rewrite Hdb in Hr. clear Hdb.
  split; [split|].
  - intros [Hn|(Hst & body & Hj & Hc)].
    + apply Z.eqb_neq in Hn. rewrite Hn in Hr. subst r. reflexivity.
    + apply Z.eqb_eq in Hst. rewrite Hst in Hr. cbn in Hr.
      rewrite Hj in Hr. cbn in Hr. rewrite Hc in Hr. subst r. reflexivity.
  - intros x (Hst & body & first & rest & Hj & Hc & Hh).
    apply Z.eqb_eq in Hst. rewrite Hst in Hr. cbn in Hr.
    rewrite Hj in Hr. cbn in Hr. rewrite Hc in Hr. cbn in Hr.
    rewrite Hh in Hr. subst r. reflexivity.
  - intros [[Hn|(Hst & body & Hj & Hc)]|[x (Hst & body & first & rest & Hj & Hc & Hh)]].
    + apply Z.eqb_neq in Hn. rewrite Hn in Hr. subst r. cbn. auto.
    + apply Z.eqb_eq in Hst. rewrite Hst in Hr. cbn in Hr.
      rewrite Hj in Hr. cbn in Hr. rewrite Hc in Hr. subst r. cbn. auto.
    + apply Z.eqb_eq in Hst. rewrite Hst in Hr. cbn in Hr.
      rewrite Hj in Hr. cbn in Hr. rewrite Hc in Hr. cbn in Hr.
      rewrite Hh in Hr. subst r. cbn. auto.
Qed.

Lemma get_env_id_lookup_witness :
  fst (get_env_id (rt := registry_runtime) example_env
         (example_state [answered 200 "e1"]))
  = Ok (Some "e1", JStr "e1")
  /\ fst (get_env_id (rt := registry_runtime) example_env
            (example_state [answered 404 "not found"]))
     = Ok (Some "e1", JNull).
Proof.
  split.
  - destruct (@get_env_id_lookup registry_runtime example_env
                (example_state [answered 200 "e1"])
                {| status_code := 200; text := "e1" |} [] eq_refl eq_refl)
      as ((_ & H) & _).
    apply (H (JStr "e1")). split; [reflexivity|].
    exists [("h", JStr "e1"); ("contexts", JArr [JObj [("h", JStr "e1")]])],
      [("h", JStr "e1")], []. repeat split.
  - destruct (@get_env_id_lookup registry_runtime example_env
                (example_state [answered 404 "not found"])
                {| status_code := 404; text := "not found" |} [] eq_refl eq_refl)
      as ((H & _) & _).
    apply H. left. discriminate.
Defined.

(** X14. An OK answer to the lookup that is not the expected document
    raises out of [get_env_id]: [JSONDecodeError] if the body is not JSON,
    [KeyError] if it is an object without [contexts], [TypeError] if it is
    JSON of another kind. The remote sink stays enabled and the cached
    identifiers stay as they were. *)
Theorem get_env_id_malformed_answer {rt : PyRuntime} :
  forall (env : ExecutionContext) (s : state) (a : response) (sv : list http_outcome),
    remote_enabled s = true ->
    server s = Responded a :: sv ->
    status_code a = OK ->
    let r := get_env_id env s in
    (json_loads (text a) = None -> fst r = Raise JSONDecodeError)
    /\ (forall body,
           json_loads (text a) = Some (JObj body) ->
           Dict.get body "contexts" = None -> fst r = Raise KeyError)
    /\ (forall j,
           json_loads (text a) = Some j ->
           (forall body, j <> JObj body) -> fst r = Raise TypeError)
    /\ self_remote (snd r) = self_remote s
    /\ self_eid (snd r) = self_eid s.
Proof.
  intros env s a sv Hen Hsv Hst r. subst r. unfold remote_enabled in Hen.
  name_run (get_env_id env s).
  unfold get_env_id, getitem_key, getitem_0.
  unfold OK in *. apply Z.eqb_eq in Hst.
  unmonad. rewrite Hen. cbn. rewrite Hsv. cbn. rewrite Hst. cbn.
  exec; end_run; repeat split; try reflexivity;
    try (intros; congruence);
    try (intros body Hb Hc; injection Hb as <-; congruence);
    try (intros j Hj Hn; injection Hj as <-; try reflexivity;
         exfalso; eapply Hn; reflexivity).
Qed.

Lemma get_env_id_malformed_answer_witness :
  fst (get_env_id (rt := example_runtime) example_env
         (example_state [answered 200 "e1"]))
  = Raise KeyError.
Proof.
  destruct (@get_env_id_malformed_answer example_runtime example_env
              (example_state [answered 200 "e1"])
              {| status_code := 200; text := "e1" |} [] eq_refl eq_refl eq_refl)
    as (_ & H & _).
  apply (H [("h", JStr "e1")]); reflexivity.
Defined.

(** ** The registration of the environment *)

(** Run with the facts at hand, splitting only on what they leave open. *)
Ltac exec_all :=
  unmonad;
  repeat (cbn in *;
          first [ match goal with
                  | H : ?x = _ |- context [match ?x with _ => _ end] => rewrite H
                  end
                | split_match ]).

(** Turn boolean tests of a status into equalities. *)
Ltac status_facts :=
  repeat match goal with
         | H : Z.eqb _ _ = true |- _ => apply Z.eqb_eq in H
         | H : Z.eqb _ _ = false |- _ => apply Z.eqb_neq in H
         end.

(** After the insert of a context its row is found. *)
Ltac requery :=
  match goal with
  | H : DBHandler.query_env_h (DBHandler.insert_execution_context _ _) _ = None
    |- _ => rewrite query_env_h_insert in H; discriminate H
  end.

(** X15. A context that the remote sink does not know is registered.
    With the sink enabled, a lookup that finds nothing and a POST of the
    context answered CREATED with a document holding [h],
    [set_environment_info] returns, the remote identifier is that [h],
    the sink stays enabled, no warning is raised, and the two requests
    made are the lookup and then the POST of [env.to_dict()]. *)
Theorem set_environment_info_registers {rt : PyRuntime} :
  forall (env : ExecutionContext) (s : state) (g p : response)
         (sv : list http_outcome) (body : Dict.t json) (x : json),
    remote_enabled s = true ->
    server s = Responded g :: Responded p :: sv ->
    not_registered g ->
    status_code p = CREATED ->
    json_loads (text p) = Some (JObj body) ->
    Dict.get body "h" = Some x ->
    let r := set_environment_info env s in
    fst r = Ok tt
    /\ remote_env_id (snd r) = x
    /\ self_remote (snd r) = self_remote s
    /\ warned (snd r) = warned s
    /\ server (snd r) = sv
    /\ exchanged (snd r)
       = (register_request s env, Responded p)
           :: (lookup_request s env, Responded g) :: exchanged s.
Proof.
  intros env s g p sv body x Hen Hsv Hg Hp Hj Hh r. subst r.
  unfold remote_enabled in Hen.
  unfold not_registered, OK, CREATED in *. apply Z.eqb_eq in Hp.
  name_run (set_environment_info env s).
  unfold set_environment_info, get_env_id, getitem_key, getitem_0,
    remote_env_id, register_request, lookup_request.
  unfold OK, CREATED in *.
  destruct Hg as [Hg|(Hg & gbody & Hgj & Hgc)];
    [apply Z.eqb_neq in Hg | apply Z.eqb_eq in Hg];
    exec_all; try congruence; try requery; end_run; repeat split; congruence.
Qed.

Lemma set_environment_info_registers_witness :
  remote_env_id
    (snd (set_environment_info (rt := registry_runtime) example_env
            (fresh_state [answered 200 "none"; answered 201 "e1"])))
  = JStr "e1"
  /\ local_contexts
       (snd (set_environment_info (rt := registry_runtime) example_env
               (fresh_state [answered 200 "none"; answered 201 "e1"])))
     = [example_env].
Proof.
  destruct (@set_environment_info_registers registry_runtime example_env
              (fresh_state [answered 200 "none"; answered 201 "e1"])
              {| status_code := 200; text := "none" |}
              {| status_code := 201; text := "e1" |} []
              [("h", JStr "e1"); ("contexts", JArr [JObj [("h", JStr "e1")]])]
              (JStr "e1") eq_refl eq_refl) as (_ & H & _).
  - right. split; [reflexivity|].
    exists [("contexts", JArr [])]. split; reflexivity.
  - reflexivity.
  - reflexivity.
  - reflexivity.
  - split; [exact H | reflexivity].
Defined.

(** A context that the remote sink refuses. *)
Lemma set_environment_info_refused {rt : PyRuntime} :
  forall (env : ExecutionContext) (s : state) (g p : response)
         (sv : list http_outcome),
    remote_enabled s = true ->
    server s = Responded g :: Responded p :: sv ->
    not_registered g ->
    status_code p <> CREATED ->
    let r := set_environment_info env s in
    fst r = Ok tt
    /\ remote_env_id (snd r) = JNull
    /\ self_remote (snd r) = Some ""
    /\ warned (snd r) = CannotInsertContext (status_code p) :: warned s
    /\ server (snd r) = sv
    /\ exchanged (snd r)
       = (register_request s env, Responded p)
           :: (lookup_request s env, Responded g) :: exchanged s.
Proof.
  intros env s g p sv Hen Hsv Hg Hp r. subst r.
  unfold remote_enabled in Hen.
  unfold not_registered, OK, CREATED in *. apply Z.eqb_neq in Hp.
  name_run (set_environment_info env s).
  unfold set_environment_info, get_env_id, getitem_key, getitem_0,
    remote_env_id, register_request, lookup_request.
  unfold OK, CREATED in *.
  destruct Hg as [Hg|(Hg & gbody & Hgj & Hgc)];
    [apply Z.eqb_neq in Hg | apply Z.eqb_eq in Hg];
    exec_all; try congruence; try requery; end_run; repeat split; congruence.
Qed.

(** X16. A context that the remote sink refuses disables the sink. With
    the sink enabled, a lookup that finds nothing and a POST of the
    context answered with anything but CREATED, [set_environment_info]
    still returns; there is no remote identifier, [self.__remote] is the
    empty string, the one warning raised carries the status, and the body
    of the answer is not read. *)
Theorem set_environment_info_rejected {rt : PyRuntime} :
  forall (env : ExecutionContext) (s : state) (g p : response)
         (sv : list http_outcome),
    remote_enabled s = true ->
    server s = Responded g :: Responded p :: sv ->
    not_registered g ->
    status_code p <> CREATED ->
    let r := set_environment_info env s in
    fst r = Ok tt
    /\ remote_env_id (snd r) = JNull
    /\ self_remote (snd r) = Some ""
    /\ warned (snd r) = CannotInsertContext (status_code p) :: warned s
    /\ server (snd r) = sv
    /\ exchanged (snd r)
       = (register_request s env, Responded p)
           :: (lookup_request s env, Responded g) :: exchanged s.
Proof. exact (@set_environment_info_refused rt). Qed.

Lemma set_environment_info_rejected_witness :
  remote_enabled
    (snd (set_environment_info (rt := registry_runtime) example_env
            (fresh_state [answered 404 ""; answered 500 ""; created])))
  = false
  /\ local_contexts
       (snd (set_environment_info (rt := registry_runtime) example_env
               (fresh_state [answered 404 ""; answered 500 ""; created])))
     = [example_env].
Proof.
  destruct (@set_environment_info_rejected registry_runtime example_env
              (fresh_state [answered 404 ""; answered 500 ""; created])
              {| status_code := 404; text := "" |}
              {| status_code := 500; text := "" |} [created]
              eq_refl eq_refl) as (_ & _ & H & _).
  - left. discriminate.
  - discriminate.
  - split; [|reflexivity]. unfold remote_enabled. rewrite H. reflexivity.
Defined.

(** X17. A context that the remote sink knows is not registered again.
    With the sink enabled and a lookup that finds an identifier,
    [set_environment_info] returns with that identifier, and the lookup
    is the only request it has made. *)
Theorem set_environment_info_remote_dedup {rt : PyRuntime} :
  forall (env : ExecutionContext) (s : state) (g : response)
         (sv : list http_outcome) (x : json),
    remote_enabled s = true ->
    server s = Responded g :: sv ->
    registered_as g x ->
    is_None x = false ->
    let r := set_environment_info env s in
    fst r = Ok tt
    /\ remote_env_id (snd r) = x
    /\ self_remote (snd r) = self_remote s
    /\ warned (snd r) = warned s
    /\ server (snd r) = sv
    /\ exchanged (snd r) = (lookup_request s env, Responded g) :: exchanged s.
Proof.
  intros env s g sv x Hen Hsv Hg Hx r. subst r.
  unfold remote_enabled in Hen.
  destruct Hg as (Hg & body & first & rest & Hj & Hc & Hh).
  unfold OK in *. apply Z.eqb_eq in Hg.
  name_run (set_environment_info env s).
  unfold set_environment_info, get_env_id, getitem_key, getitem_0,
    remote_env_id, lookup_request.
  unfold OK, CREATED in *.
  exec_all; try congruence; try requery; end_run; repeat split; congruence.
Qed.

Lemma set_environment_info_remote_dedup_witness :
  exchanged
    (snd (set_environment_info (rt := registry_runtime) example_env
            (fresh_state [answered 200 "e1"; created])))
  = [(lookup_request (fresh_state []) example_env, answered 200 "e1")].
Proof.
  destruct (@set_environment_info_remote_dedup registry_runtime example_env
              (fresh_state [answered 200 "e1"; created])
              {| status_code := 200; text := "e1" |} [created] (JStr "e1")
              eq_refl eq_refl) as (_ & _ & _ & _ & _ & H).
  - split; [reflexivity|].
    exists [("h", JStr "e1"); ("contexts", JArr [JObj [("h", JStr "e1")]])],
      [("h", JStr "e1")], []. repeat split.
  - reflexivity.
  - exact H.
Defined.

(** X18. What a [set_environment_info] that returns has resolved. Without
    a store there is no local identifier; with a store the local
    identifier is the fingerprint of the context; and a remote identifier
    is only there with the remote sink enabled. *)
Theorem set_environment_info_resolved {rt : PyRuntime} :
  forall (env : ExecutionContext) (s : state),
    fst (set_environment_info env s) = Ok tt ->
    (self_db s = None -> db_env_id (snd (set_environment_info env s)) = None)
    /\ (self_db s <> None ->
        db_env_id (snd (set_environment_info env s)) = Some (compute_hash env))
    /\ (is_None (remote_env_id (snd (set_environment_info env s))) = false ->
        remote_enabled (snd (set_environment_info env s)) = true).
Proof.
  intros env s. name_run (set_environment_info env s).
  unfold set_environment_info, get_env_id, getitem_key, getitem_0,
    remote_env_id, db_env_id, remote_enabled.
  exec; end_run; intros Hok; try discriminate Hok;
    repeat match goal with
           | H : DBHandler.query_env_h _ _ = Some _ |- _ =>
               apply query_env_h_key in H; subst
           end;
    repeat split; intros; try reflexivity; try congruence.
Qed.

Lemma set_environment_info_resolved_witness :
  db_env_id (snd (set_environment_info (rt := registry_runtime) example_env
                    (fresh_state [answered 200 "e1"])))
  = Some "e1".
Proof.
  destruct (@set_environment_info_resolved registry_runtime example_env
              (fresh_state [answered 200 "e1"]) eq_refl) as (_ & H & _).
  apply H. discriminate.
Defined.

(** ** The establishment of a session *)

(** Run [compute_info] up to [set_environment_info]: the session
    identity, the tag loops and the calibration. *)
Ltac start_session h description Hwf Hfr :=
  unfold compute_info, Hashlib.hexdigest, Hashlib.update, Hashlib.new, encode;
  cbn [Hashlib.fed append]; rewrite append_assoc;
  match goal with
  | |- context [for_tags ?tags ?d] =>
      change d with (description_base h description)
  end;
  unmonad;
  match goal with
  | |- context [for_tags ?tags ?d ?s0] =>
      let d' := fresh "d'" in
      let Ht := fresh "Ht" in
      let Hget := fresh "Hget" in
      destruct (for_tags_merges tags d s0 Hwf) as (d' & Ht & Hget);
      rewrite Ht
  end;
  unfold prepare; unmonad;
  match type of Hfr with
  | first_reading ?m = _ =>
      destruct m as [[|? ?]|?]; cbn in Hfr; try discriminate Hfr;
      injection Hfr as Hfr; subst; cbn [nth_error]
  end.

(** [compute_info] without a live remote sink. *)
Lemma compute_info_local {rt : PyRuntime} :
  forall (h : host) (description : string) (tags : list tag) (s : state) (b : float),
    remote_enabled s = false ->
    well_formed tags ->
    first_reading (memuse h) = Some b ->
    let r := compute_info h description tags s in
    let id := md5_hexdigest (scm_revision h ++ now_isoformat h ++ description)%string in
    fst r = Ok tt
    /\ exchanged (snd r) = exchanged s
    /\ self_mem_usage_base (snd r) = Some b
    /\ self_session (snd r) = id
    /\ (self_db s = None -> self_db (snd r) = None)
    /\ exists d',
         (forall k, Dict.get d' k
                    = match last_value k (flat_tags tags) with
                      | Some v => Some v
                      | None => Dict.get (description_base h description) k
                      end)
         /\ forall store,
              self_db s = Some store ->
              db_env_id (snd r) = Some (compute_hash (context h))
              /\ self_db (snd r)
                 = Some (DBHandler.insert_session
                           (match DBHandler.query_env_h store
                                    (compute_hash (context h)) with
                            | Some _ => store
                            | None =>
                                DBHandler.insert_execution_context store (context h)
                            end)
                           {| sr_session_h := id;
                              sr_run_date := now_isoformat h;
                              sr_scm := scm_revision h;
                              sr_description := json_dumps (json_of_dict d') |}).
Proof.
  intros h description tags s b Hd Hwf Hfr r id. subst r id.
  unfold remote_enabled, well_formed in *.
  name_run (compute_info h description tags s).
  start_session h description Hwf Hfr.
  all: unfold set_environment_info, get_env_id, getitem_key, getitem_0, db_env_id.
  all: exec_all; try requery; end_run.
  all: repeat match goal with
              | H : DBHandler.query_env_h _ ?x = Some ?k |- _ =>
                  assert (k = x) by (eapply query_env_h_key; exact H); subst k
              end.
  all: repeat split; try reflexivity; try congruence.
  all: exists d'; (split; [exact Hget|]); intros store Hs;
         try discriminate Hs; injection Hs as <-;
         repeat match goal with
                | H : DBHandler.query_env_h _ _ = _ |- _ => rewrite H
                end;
         split; reflexivity.
Qed.

(** X19. [compute_info] on a session without a live remote sink, with
    tags that all have their ['='] and a memory reading. The call returns
    and makes no request. It leaves the first reading as baseline and the
    MD5 identity as session. With a store it inserts the context unless
    its fingerprint is there already, resolves the local identifier to
    the fingerprint, and then inserts one session row: the identity, the
    run date, the revision and the serialised mapping, in which a key
    named by a tag reads the value of the last such tag and any other key
    reads the CI metadata or the given description. *)
Theorem compute_info_local_session {rt : PyRuntime} :
  forall (h : host) (description : string) (tags : list tag) (s : state) (b : float),
    remote_enabled s = false ->
    well_formed tags ->
    first_reading (memuse h) = Some b ->
    let r := compute_info h description tags s in
    let id := md5_hexdigest (scm_revision h ++ now_isoformat h ++ description)%string in
    fst r = Ok tt
    /\ exchanged (snd r) = exchanged s
    /\ self_mem_usage_base (snd r) = Some b
    /\ self_session (snd r) = id
    /\ (self_db s = None -> self_db (snd r) = None)
    /\ exists d',
         (forall k, Dict.get d' k
                    = match last_value k (flat_tags tags) with
                      | Some v => Some v
                      | None => Dict.get (description_base h description) k
                      end)
         /\ forall store,
              self_db s = Some store ->
              db_env_id (snd r) = Some (compute_hash (context h))
              /\ self_db (snd r)
                 = Some (DBHandler.insert_session
                           (match DBHandler.query_env_h store
                                    (compute_hash (context h)) with
                            | Some _ => store
                            | None =>
                                DBHandler.insert_execution_context store (context h)
                            end)
                           {| sr_session_h := id;
                              sr_run_date := now_isoformat h;
                              sr_scm := scm_revision h;
                              sr_description := json_dumps (json_of_dict d') |}).
Proof. exact (@compute_info_local rt). Qed.

Lemma compute_info_local_session_witness :
  fst (compute_info (rt := example_runtime) example_host "nightly"
         [Single "team=core"] (set_remote None (fresh_state []))) = Ok tt
  /\ length (DBHandler.TEST_SESSIONS
               match self_db
                       (snd (compute_info (rt := example_runtime) example_host
                               "nightly" [Single "team=core"]
                               (set_remote None (fresh_state [])))) with
               | Some store => store
               | None => DBHandler.empty
               end) = 1.
Proof.
  destruct (@compute_info_local_session example_runtime example_host "nightly"
              [Single "team=core"] (set_remote None (fresh_state [])) 100%float
              eq_refl) as (H1 & _ & _ & _ & _ & d' & _ & H2).
  - cbn. repeat constructor.
  - reflexivity.
  - split; [exact H1|].
    destruct (H2 DBHandler.empty eq_refl) as [_ E]. rewrite E. reflexivity.
Defined.

(** X20. A remote outage at registration does not stop the session. With
    the remote sink enabled, a store configured, a lookup that finds
    nothing and the POST of the context answered with anything but
    CREATED, [compute_info] still returns. The sink is disabled, the one
    warning raised is the one of the context, and the session is not
    posted: the lookup and the POST of the context are the only requests.
    The local store gets its context, resolved to the fingerprint, and
    its one session row. *)
Theorem compute_info_survives_rejected_context {rt : PyRuntime} :
  forall (h : host) (description : string) (tags : list tag) (s : state) (b : float)
         (g p : response) (sv : list http_outcome) (store : DBHandler.t),
    remote_enabled s = true ->
    server s = Responded g :: Responded p :: sv ->
    not_registered g ->
    status_code p <> CREATED ->
    well_formed tags ->
    first_reading (memuse h) = Some b ->
    self_db s = Some store ->
    let r := compute_info h description tags s in
    fst r = Ok tt
    /\ remote_enabled (snd r) = false
    /\ warned (snd r) = CannotInsertContext (status_code p) :: warned s
    /\ server (snd r) = sv
    /\ exchanged (snd r)
       = (register_request s (context h), Responded p)
           :: (lookup_request s (context h), Responded g) :: exchanged s
    /\ db_env_id (snd r) = Some (compute_hash (context h))
    /\ exists store',
         self_db (snd r) = Some store'
         /\ DBHandler.query_env_h store' (compute_hash (context h))
            = Some (compute_hash (context h))
         /\ length (DBHandler.TEST_SESSIONS store')
            = S (length (DBHandler.TEST_SESSIONS store)).
Proof.
  intros h description tags s b g p sv store Hen Hsv Hg Hp Hwf Hfr Hdb r. subst r.
  unfold remote_enabled, well_formed in *.
  unfold not_registered, OK, CREATED in *. apply Z.eqb_neq in Hp.
  name_run (compute_info h description tags s).
  start_session h description Hwf Hfr.
  all: unfold set_environment_info, get_env_id, getitem_key, getitem_0, db_env_id,
         register_request, lookup_request.
  all: unfold OK, CREATED in *.
  all: destruct Hg as [Hg|(Hg & gbody & Hgj & Hgc)];
         [apply Z.eqb_neq in Hg | apply Z.eqb_eq in Hg].
  all: pose proof (query_env_h_insert store (context h)) as Hins.
  all: exec_all; try congruence; end_run.
  all: repeat match goal with
              | H : DBHandler.query_env_h _ ?x = Some ?k |- _ =>
                  assert (k = x) by (eapply query_env_h_key; exact H); subst k
              end.
  all: repeat split; try reflexivity; try congruence.
  all: eexists; (split; [reflexivity|]); cbn; rewrite ?length_app; cbn;
         split; [unfold DBHandler.query_env_h in *; cbn in *; assumption | lia].
Qed.

Lemma compute_info_survives_rejected_context_witness :
  fst (compute_info (rt := registry_runtime) example_host "nightly"
         [Single "team=core"] (fresh_state [answered 200 "none"; rejected; created]))
  = Ok tt
  /\ exchanged (snd (compute_info (rt := registry_runtime) example_host "nightly"
                       [Single "team=core"]
                       (fresh_state [answered 200 "none"; rejected; created])))
     = [(register_request (fresh_state []) example_env, rejected);
        (lookup_request (fresh_state []) example_env, answered 200 "none")].
Proof.
  destruct (@compute_info_survives_rejected_context registry_runtime example_host
              "nightly" [Single "team=core"]
              (fresh_state [answered 200 "none"; rejected; created]) 100%float
              {| status_code := 200; text := "none" |}
              {| status_code := 500; text := "Internal Server Error" |}
              [created] DBHandler.empty eq_refl eq_refl)
    as (H1 & _ & _ & _ & H2 & _).
  - right. split; [reflexivity|].
    exists [("contexts", JArr [])]. split; reflexivity.
  - discriminate.
  - cbn. repeat constructor.
  - reflexivity.
  - reflexivity.
  - split; [exact H1 | exact H2].
Defined.

(** [compute_info] up to the answer to the POST of the session. *)
Lemma compute_info_session_answered {rt : PyRuntime} :
  forall (h : host) (description : string) (tags : list tag) (s : state) (b : float)
         (g p q : response) (sv : list http_outcome) (body : Dict.t json) (x : json),
    remote_enabled s = true ->
    server s = Responded g :: Responded p :: Responded q :: sv ->
    not_registered g ->
    status_code p = CREATED ->
    json_loads (text p) = Some (JObj body) ->
    Dict.get body "h" = Some x ->
    (forall j, json_loads (json_dumps j) <> None) ->
    well_formed tags ->
    first_reading (memuse h) = Some b ->
    let r := compute_info h description tags s in
    let id := md5_hexdigest (scm_revision h ++ now_isoformat h ++ description)%string in
    fst r = Ok tt
    /\ server (snd r) = sv
    /\ remote_env_id (snd r) = x
    /\ (exists payload,
          exchanged (snd r)
          = (session_request s (JObj payload), Responded q)
              :: (register_request s (context h), Responded p)
              :: (lookup_request s (context h), Responded g) :: exchanged s
          /\ Dict.get payload "session_h" = Some (JStr id)
          /\ Dict.get payload "run_date" = Some (JStr (now_isoformat h))
          /\ Dict.get payload "scm_ref" = Some (JStr (scm_revision h)))
    /\ (status_code q = CREATED ->
        self_remote (snd r) = self_remote s /\ warned (snd r) = warned s)
    /\ (status_code q <> CREATED ->
        self_remote (snd r) = Some ""
        /\ warned (snd r) = CannotInsertSession (status_code q) :: warned s).
Proof.
  intros h description tags s b g p q sv body x
    Hen Hsv Hg Hp Hj Hh Hrt Hwf Hfr r id. subst r id.
  unfold remote_enabled, well_formed in *.
  unfold not_registered, OK, CREATED in *. apply Z.eqb_eq in Hp.
  name_run (compute_info h description tags s).
  start_session h description Hwf Hfr.
  all: unfold set_environment_info, get_env_id, getitem_key, getitem_0,
         remote_env_id, db_env_id, session_request, register_request,
         lookup_request.
  all: unfold OK, CREATED in *.
  all: destruct Hg as [Hg|(Hg & gbody & Hgj & Hgc)];
         [apply Z.eqb_neq in Hg | apply Z.eqb_eq in Hg].
  all: exec_all; try congruence; try requery;
         try (exfalso; eapply Hrt; eassumption); end_run.
  all: status_facts.
  all: repeat split; try reflexivity; try congruence;
         try (intros; congruence);
         try (eexists; repeat split; reflexivity).
Qed.

(** X21. The establishment of a session on both sinks. With the remote
    sink enabled, a lookup that finds nothing, the POST of the context
    answered CREATED with a document holding [h], and a serialised
    description that reads back, [compute_info] returns after three
    requests, in this order: the lookup, the POST of the context, the
    POST of the session; the payload of the last holds the session
    identity, the run date and the revision. The remote identifier is
    [h] whatever the answer to the session. If that answer is CREATED the
    sink stays enabled and no warning is raised; otherwise the sink is
    disabled and the one warning raised is the one of the session. *)
Theorem compute_info_posts_session {rt : PyRuntime} :
  forall (h : host) (description : string) (tags : list tag) (s : state) (b : float)
         (g p q : response) (sv : list http_outcome) (body : Dict.t json) (x : json),
    remote_enabled s = true ->
    server s = Responded g :: Responded p :: Responded q :: sv ->
    not_registered g ->
    status_code p = CREATED ->
    json_loads (text p) = Some (JObj body) ->
    Dict.get body "h" = Some x ->
    (forall j, json_loads (json_dumps j) <> None) ->
    well_formed tags ->
    first_reading (memuse h) = Some b ->
    let r := compute_info h description tags s in
    let id := md5_hexdigest (scm_revision h ++ now_isoformat h ++ description)%string in
    fst r = Ok tt
    /\ server (snd r) = sv
    /\ remote_env_id (snd r) = x
    /\ (exists payload,
          exchanged (snd r)
          = (session_request s (JObj payload), Responded q)
              :: (register_request s (context h), Responded p)
              :: (lookup_request s (context h), Responded g) :: exchanged s
          /\ Dict.get payload "session_h" = Some (JStr id)
          /\ Dict.get payload "run_date" = Some (JStr (now_isoformat h))
          /\ Dict.get payload "scm_ref" = Some (JStr (scm_revision h)))
    /\ (status_code q = CREATED ->
        self_remote (snd r) = self_remote s /\ warned (snd r) = warned s)
    /\ (status_code q <> CREATED ->
        self_remote (snd r) = Some ""
        /\ warned (snd r) = CannotInsertSession (status_code q) :: warned s).
Proof. exact (@compute_info_session_answered rt). Qed.

Lemma compute_info_posts_session_witness :
  fst (compute_info (rt := registry_runtime) example_host "nightly"
         [Single "team=core"]
         (fresh_state [answered 200 "none"; answered 201 "e1"; answered 201 "ok"]))
  = Ok tt
  /\ length (exchanged
               (snd (compute_info (rt := registry_runtime) example_host "nightly"
                       [Single "team=core"]
                       (fresh_state [answered 200 "none"; answered 201 "e1";
                                     answered 201 "ok"]))))
     = 3.
Proof.
  destruct (@compute_info_posts_session registry_runtime example_host
              "nightly" [Single "team=core"]
              (fresh_state [answered 200 "none"; answered 201 "e1"; answered 201 "ok"])
              100%float
              {| status_code := 200; text := "none" |}
              {| status_code := 201; text := "e1" |}
              {| status_code := 201; text := "ok" |} []
              [("h", JStr "e1"); ("contexts", JArr [JObj [("h", JStr "e1")]])]
              (JStr "e1") eq_refl eq_refl)
    as (H1 & _ & _ & (payload & H2 & _) & _).
  - right. split; [reflexivity|].
    exists [("contexts", JArr [])]. split; reflexivity.
  - reflexivity.
  - reflexivity.
  - reflexivity.
  - intros j. discriminate.
  - cbn. repeat constructor.
  - reflexivity.
  - split; [exact H1|]. rewrite H2. reflexivity.
Defined.

(** X22. A memory profiler that gives an empty list stops the session.
    [prepare] then raises [IndexError] and leaves the baseline as it was;
    [compute_info], with tags that all have their ['='], raises it after
    the session identity is stored and before the environment is
    resolved: nothing else of the state has changed. *)
Theorem empty_memory_reading_raises {rt : PyRuntime} :
  forall (h : host) (description : string) (tags : list tag) (s : state),
    prepare (MemList []) s = (Raise IndexError, s)
    /\ (well_formed tags ->
        memuse h = MemList [] ->
        compute_info h description tags s
        = (Raise IndexError,
           set_session
             (md5_hexdigest (scm_revision h ++ now_isoformat h ++ description)%string)
             s)).
Proof.
  intros h description tags s. split; [reflexivity|].
  intros Hwf Hm. unfold well_formed in Hwf.
  unfold compute_info, Hashlib.hexdigest, Hashlib.update, Hashlib.new, encode.
  cbn [Hashlib.fed append]. rewrite append_assoc. unmonad.
  match goal with
  | |- context [for_tags tags ?d ?s0] =>
      destruct (for_tags_merges tags d s0 Hwf) as (d' & Ht & _); rewrite Ht
  end.
  unfold prepare. unmonad. rewrite Hm. reflexivity.
Qed.

Lemma empty_memory_reading_raises_witness :
  fst (compute_info (rt := example_runtime)
         {| now_isoformat := "2024-01-01T00:00:00"; scm_revision := "abc123";
            ci_info := []; memuse := MemList []; context := example_env |}
         "nightly" [Single "team=core"] (fresh_state [created; created]))
  = Raise IndexError.
Proof.
  destruct (@empty_memory_reading_raises example_runtime
              {| now_isoformat := "2024-01-01T00:00:00"; scm_revision := "abc123";
                 ci_info := []; memuse := MemList []; context := example_env |}
              "nightly" [Single "team=core"] (fresh_state [created; created]))
    as [_ H].
  rewrite H; [reflexivity | | reflexivity].
  cbn. repeat constructor.
Defined.

(** ** The one-way health flag, over the three writes *)


